(** * Laptop recommendation system: recommendation engine and chatbot

    A shallow embedding of [src/recommendation_engine.py],
    [src/chatbot.py], the validators of [src/models.py] and the endpoints
    of [src/main.py] that call the engine and the chatbot, followed by the
    properties proved about them.

    Conventions of the embedding:
    - Python [float] values (prices, budgets, weights, scores) are exact
      rationals in canonical form ([Qc]), so [==] on scores is Leibniz
      equality; Python [int] values (RAM, storage) are [Z].
    - A laptop dictionary is a record; the keys read with [laptop["k"]] are
      plain fields, the keys read with [laptop.get("k")] or guarded by
      ["k" in laptop] are [option] fields.
    - [UsageType] is a [str] enumeration: its members hash and compare as
      their string values, so usage types are strings and the requirement
      table is a finite map keyed by strings.
    - Raised exceptions are values of [exn]; the calls a function makes to
      the collaborators of interest are recorded in a trace of [event]s.
    - Utterances are ASCII strings; [\d], [\s], [\w], [str.lower] and
      [re.IGNORECASE] are taken on ASCII.  [int] and [float] of a string of
      digits are its exact value. *)

From Stdlib Require Import QArith Qcanon ZArith Ascii String.
From stdpp Require Import gmap strings list fin_maps numbers sorting.
Close Scope Qc_scope.
Close Scope Q_scope.

(** ** Python values and control effects *)

Module Py.

(** Exceptions raised by the embedded code. *)
Inductive exn :=
| KeyError (key : string)
| ZeroDivisionError.

Inductive result (A : Type) :=
| Ok (a : A)
| Raise (e : exn).
Global Arguments Ok {A} a.
Global Arguments Raise {A} e.

(** A computation returns the trace of events it emitted together with its
    outcome; the events emitted before an exception are kept. *)
Definition M (E A : Type) : Type := (list E * result A)%type.

Definition ret {E A} (a : A) : M E A := ([], Ok a).
Definition raise {E A} (e : exn) : M E A := ([], Raise e).
Definition emit {E} (e : E) : M E unit := ([e], Ok tt).
Definition bind {E A B} (f : A → M E B) (m : M E A) : M E B :=
  match m with
  | (t, Ok a) => let '(t', r) := f a in (t ++ t', r)
  | (t, Raise e) => (t, Raise e)
  end.

(** The monad operations behind the notations [x ← m; k] and [m;; k]. *)
Global Instance M_ret {E} : MRet (M E) := λ A, ret.
Global Instance M_bind {E} : MBind (M E) := λ A B, bind.

Definition trace {E A} (m : M E A) : list E := fst m.
Definition outcome {E A} (m : M E A) : result A := snd m.

(** [d[k]] on a dictionary: [KeyError] when the key is absent. *)
Definition getitem {E A} (d : gmap string A) (k : string) : M E A :=
  match d !! k with
  | Some v => ret v
  | None => raise (KeyError k)
  end.

(** [l[:n]] for a Python integer [n]; a negative [n] counts from the end. *)
Definition slice_to {A} (n : Z) (l : list A) : list A :=
  if (0 <=? n)%Z then take (Z.to_nat n) l
  else take (length l - Z.to_nat (- n)) l.

(** [str.lower] on ASCII. *)
Definition lower_ascii (c : ascii) : ascii :=
  let n := N_of_ascii c in
  if ((65 <=? n) && (n <=? 90))%N then ascii_of_N (n + 32) else c.

Definition upper_ascii (c : ascii) : ascii :=
  let n := N_of_ascii c in
  if ((97 <=? n) && (n <=? 122))%N then ascii_of_N (n - 32) else c.

Fixpoint lower (s : string) : string :=
  match s with
  | EmptyString => EmptyString
  | String c s' => String (lower_ascii c) (lower s')
  end.

Fixpoint upper (s : string) : string :=
  match s with
  | EmptyString => EmptyString
  | String c s' => String (upper_ascii c) (upper s')
  end.

(** [sub in s] on strings. *)
Fixpoint contains (sub s : string) : bool :=
  String.prefix sub s ||
  match s with
  | EmptyString => false
  | String _ s' => contains sub s'
  end.

(** [min(a, b)] on floats: the first argument unless the second is
    smaller. *)
Definition min (a b : Qc) : Qc := if decide (b < a)%Qc then b else a.

End Py.

(** ** models.py *)

Module UsageType.
Definition GAMING : string := "gaming".
Definition BUSINESS : string := "business".
Definition STUDENT : string := "student".
Definition CREATIVE : string := "creative".
Definition PROGRAMMING : string := "programming".
Definition GENERAL : string := "general".

Definition members : list string :=
  [GAMING; BUSINESS; STUDENT; CREATIVE; PROGRAMMING; GENERAL].
End UsageType.

(** A catalog entry, with the fields of [models.Laptop]. *)
Record laptop := Laptop {
  laptop_id : string;
  brand : string;
  model : string;
  price : Qc;
  processor : string;
  ram : Z;
  storage : Z;
  gpu : option string;
  display : option string;
  battery_life : option Qc;
  weight : option Qc;
  os : option string
}.

(** [laptop.copy()] with the ["score"] key added. *)
Record scored_laptop := Scored {
  scored : laptop;
  score : Qc
}.

(** The events recorded in traces: one per call of [_filter_laptops] and one
    per call of [get_recommendations], each with the arguments of the call. *)
Inductive event :=
| FilterCall (budget : Qc) (usage_type : string)
    (brand_preference : option string) (min_ram min_storage : option Z)
    (prefer_gpu : bool)
| EngineCall (budget : Qc) (usage_type : string)
    (brand_preference : option string) (min_ram min_storage : option Z)
    (prefer_gpu : bool).

(** ** recommendation_engine.py *)

Module RecommendationEngine.
Import Py.

(** An entry of [usage_requirements]; every key but ["importance"] is read
    with [.get] and may be absent. *)
Record requirements := Requirements {
  req_min_ram : option Z;
  req_min_storage : option Z;
  req_min_battery_life : option Z;
  req_gpu_required : option bool;
  req_processor_keywords : option (list string);
  req_importance : gmap string Qc
}.

Definition d (n : Z) (p : positive) : Qc := Q2Qc (n # p).

Definition gaming_requirements : requirements :=
  {| req_min_ram := Some 16%Z; req_min_storage := Some 512%Z;
     req_min_battery_life := None; req_gpu_required := Some true;
     req_processor_keywords := Some ["i7"; "i9"; "ryzen 7"; "ryzen 9"];
     req_importance := list_to_map
       [("gpu", d 4 10); ("processor", d 3 10); ("ram", d 2 10);
        ("display", d 1 10)] |}.

Definition business_requirements : requirements :=
  {| req_min_ram := Some 8%Z; req_min_storage := Some 256%Z;
     req_min_battery_life := Some 8%Z; req_gpu_required := None;
     req_processor_keywords := Some ["i5"; "i7"; "ryzen 5"; "ryzen 7"];
     req_importance := list_to_map
       [("battery_life", d 4 10); ("weight", d 3 10); ("processor", d 2 10);
        ("ram", d 1 10)] |}.

Definition student_requirements : requirements :=
  {| req_min_ram := Some 8%Z; req_min_storage := Some 256%Z;
     req_min_battery_life := Some 6%Z; req_gpu_required := None;
     req_processor_keywords := Some ["i3"; "i5"; "ryzen 3"; "ryzen 5"];
     req_importance := list_to_map
       [("price", d 4 10); ("battery_life", d 3 10); ("weight", d 2 10);
        ("storage", d 1 10)] |}.

Definition creative_requirements : requirements :=
  {| req_min_ram := Some 16%Z; req_min_storage := Some 512%Z;
     req_min_battery_life := None; req_gpu_required := Some true;
     req_processor_keywords := Some ["i7"; "i9"; "ryzen 7"; "ryzen 9"];
     req_importance := list_to_map
       [("display", d 4 10); ("gpu", d 3 10); ("ram", d 2 10);
        ("processor", d 1 10)] |}.

Definition programming_requirements : requirements :=
  {| req_min_ram := Some 16%Z; req_min_storage := Some 512%Z;
     req_min_battery_life := None; req_gpu_required := None;
     req_processor_keywords := Some ["i5"; "i7"; "ryzen 5"; "ryzen 7"];
     req_importance := list_to_map
       [("processor", d 4 10); ("ram", d 3 10); ("battery_life", d 2 10);
        ("storage", d 1 10)] |}.

Definition general_requirements : requirements :=
  {| req_min_ram := Some 8%Z; req_min_storage := Some 256%Z;
     req_min_battery_life := None; req_gpu_required := None;
     req_processor_keywords := Some ["i5"; "i7"; "ryzen 5"];
     req_importance := list_to_map
       [("price", d 4 10); ("battery_life", d 3 10); ("processor", d 2 10);
        ("ram", d 1 10)] |}.

Definition usage_requirements_items : list (string * requirements) :=
  [(UsageType.GAMING, gaming_requirements);
   (UsageType.BUSINESS, business_requirements);
   (UsageType.STUDENT, student_requirements);
   (UsageType.CREATIVE, creative_requirements);
   (UsageType.PROGRAMMING, programming_requirements);
   (UsageType.GENERAL, general_requirements)].

Definition usage_requirements : gmap string requirements :=
  list_to_map usage_requirements_items.

(** [self.usage_requirements.get(usage_type,
    self.usage_requirements[UsageType.GENERAL])] *)
Definition requirements_or_general (usage_type : string) : requirements :=
  default general_requirements (usage_requirements !! usage_type).

(** [laptop.get("gpu") and laptop.get("gpu") != "None"] *)
Definition has_gpu (l : laptop) : bool :=
  match gpu l with
  | Some g => negb (String.eqb g "") && negb (String.eqb g "None")
  | None => false
  end.

(** Truthiness of an optional string. *)
Definition truthy (s : option string) : bool :=
  match s with
  | Some s => negb (String.eqb s "")
  | None => false
  end.

(** The list computed by the body of [_filter_laptops]. *)
Definition filter_results (laptop_data : list laptop) (budget : Qc)
    (usage_type : string) (brand_preference : option string)
    (min_ram min_storage : option Z) (prefer_gpu : bool) : list laptop :=
  let usage_reqs := requirements_or_general usage_type in
  let min_ram :=
    match min_ram with
    | None => default 4%Z (req_min_ram usage_reqs)
    | Some v => v
    end in
  let min_storage :=
    match min_storage with
    | None => default 128%Z (req_min_storage usage_reqs)
    | Some v => v
    end in
  let results := filter (λ l, (price l ≤ budget)%Qc) laptop_data in
  let results := filter (λ l, (min_ram ≤ ram l)%Z) results in
  let results := filter (λ l, (min_storage ≤ storage l)%Z) results in
  let results :=
    if truthy brand_preference then
      filter (λ l, lower (brand l) = lower (default "" brand_preference))
        results
    else results in
  let results :=
    if default false (req_gpu_required usage_reqs) || prefer_gpu then
      filter (λ l, has_gpu l = true) results
    else results in
  results.

Definition _filter_laptops (laptop_data : list laptop) (budget : Qc)
    (usage_type : string) (brand_preference : option string)
    (min_ram min_storage : option Z) (prefer_gpu : bool)
    : M event (list laptop) :=
  emit (FilterCall budget usage_type brand_preference min_ram min_storage
          prefer_gpu) ;;
  ret (filter_results laptop_data budget usage_type brand_preference
         min_ram min_storage prefer_gpu).

(** [importance.get(key, dflt)] *)
Definition weight_of (importance : gmap string Qc) (key : string)
    (dflt : Qc) : Qc :=
  default dflt (importance !! key).

(** The [for keyword in processor_keywords] loop. *)
Fixpoint processor_score (processor_keywords : list string)
    (processor : string) : Qc :=
  match processor_keywords with
  | [] => 0%Qc
  | keyword :: rest =>
      if contains (lower keyword) (lower processor) then 1%Qc
      else processor_score rest processor
  end.

(** The body of the scoring loop for one laptop, [reqs] being the entry
    of the usage type (or of [GENERAL]); [budget] is not zero. *)
Definition laptop_score (reqs : requirements) (budget : Qc) (l : laptop)
    : Qc :=
  let importance := req_importance reqs in
  let score := 0%Qc in
  let price_efficiency := (1 - price l / budget)%Qc in
  let score := (score + weight_of importance "price" (d 25 100)
                        * price_efficiency)%Qc in
  let ram_score := Py.min 1%Qc (Qc_of_Z (ram l) / Qc_of_Z 32)%Qc in
  let score := (score + weight_of importance "ram" (d 15 100)
                        * ram_score)%Qc in
  let storage_score :=
    Py.min 1%Qc (Qc_of_Z (storage l) / Qc_of_Z 1000)%Qc in
  let score := (score + weight_of importance "storage" (d 1 10)
                        * storage_score)%Qc in
  let processor_keywords := default [] (req_processor_keywords reqs) in
  let processor_score := processor_score processor_keywords (processor l) in
  let score := (score + weight_of importance "processor" (d 2 10)
                        * processor_score)%Qc in
  let score :=
    if decide (0 < weight_of importance "gpu" 0%Qc)%Qc then
      let gpu_score := if has_gpu l then 1%Qc else 0%Qc in
      (score + weight_of importance "gpu" 0%Qc * gpu_score)%Qc
    else score in
  let score :=
    match battery_life l with
    | Some b =>
        let battery_score := Py.min 1%Qc (b / Qc_of_Z 15)%Qc in
        (score + weight_of importance "battery_life" (d 1 10)
                 * battery_score)%Qc
    | None => score
    end in
  let score :=
    match weight l with
    | Some w =>
        let weight_score := (1 - Py.min 1%Qc (w / Qc_of_Z 3))%Qc in
        (score + weight_of importance "weight" (d 1 10) * weight_score)%Qc
    | None => score
    end in
  score.

(** [sorted(xs, key=lambda x: x["score"], reverse=True)]: Python's sort is
    stable, also with [reverse=True], so an element is placed before the
    first element whose score is not greater than its own. *)
Fixpoint insert_by_score (x : scored_laptop) (l : list scored_laptop)
    : list scored_laptop :=
  match l with
  | [] => [x]
  | y :: l' =>
      if decide (score x < score y)%Qc then y :: insert_by_score x l'
      else x :: l
  end.

Definition sorted_by_score_desc (l : list scored_laptop)
    : list scored_laptop :=
  foldr insert_by_score [] l.

Definition _score_laptops (laptops : list laptop) (usage_type : string)
    (budget : Qc) : M event (list scored_laptop) :=
  match laptops with
  | [] => ret []
  | _ :: _ =>
      (* [laptop["price"] / budget] on the first laptop *)
      if decide (budget = 0%Qc) then raise ZeroDivisionError
      else
        let reqs := requirements_or_general usage_type in
        ret (sorted_by_score_desc
               ((λ l, Scored l (laptop_score reqs budget l)) <$> laptops))
  end.

(** [budget * 1.1] *)
Definition relaxed_budget (budget : Qc) : Qc := (budget * d 11 10)%Qc.

Definition get_recommendations (laptop_data : list laptop) (budget : Qc)
    (usage_type : string) (brand_preference : option string)
    (min_ram min_storage : option Z) (prefer_gpu : bool) (limit : Z)
    : M event (list scored_laptop) :=
  filtered_laptops ← _filter_laptops laptop_data budget usage_type
                        brand_preference min_ram min_storage prefer_gpu;
  filtered_laptops ←
    match filtered_laptops with
    | [] =>
        reqs ← getitem usage_requirements usage_type;
        let relaxed_ram := default 4%Z (req_min_ram reqs) in
        reqs ← getitem usage_requirements usage_type;
        let relaxed_storage := default 128%Z (req_min_storage reqs) in
        _filter_laptops laptop_data (relaxed_budget budget) usage_type
          None (Some relaxed_ram) (Some relaxed_storage) prefer_gpu
    | _ :: _ => ret filtered_laptops
    end;
  scored_laptops ← _score_laptops filtered_laptops usage_type budget;
  ret (slice_to limit scored_laptops).

End RecommendationEngine.

(** ** Regular expressions: the fragment of [re] used by chatbot.py

    [re.search] is a backtracking matcher: alternatives are tried from left
    to right, quantifiers are greedy, and the first start position with a
    match wins.  [run r st] lists the states in which a match of [r] from
    [st] can end, in the order in which backtracking tries them; the head of
    the list is the match Python reports.  All patterns are compiled with
    [re.IGNORECASE]. *)

Module Re.

Definition is_digit (c : ascii) : bool :=
  let n := N_of_ascii c in ((48 <=? n) && (n <=? 57))%N.

Definition is_space (c : ascii) : bool :=
  let n := N_of_ascii c in
  (((9 <=? n) && (n <=? 13)) || ((28 <=? n) && (n <=? 32)))%N.

Definition is_alpha (c : ascii) : bool :=
  let n := N_of_ascii c in
  (((65 <=? n) && (n <=? 90)) || ((97 <=? n) && (n <=? 122)))%N.

Definition is_word (c : ascii) : bool :=
  is_digit c || is_alpha c || (N_of_ascii c =? 95)%N.

(** Two characters that are equal up to case, as [re.IGNORECASE] compares
    a character of the subject with a literal of the pattern. *)
Definition same_letter (x c : ascii) : bool :=
  Ascii.eqb (Py.lower_ascii x) (Py.lower_ascii c).

Inductive cls := Digit | Space | Word.

Definition in_cls (k : cls) (c : ascii) : bool :=
  match k with
  | Digit => is_digit c
  | Space => is_space c
  | Word => is_word c
  end.

Inductive regex :=
| Void                       (* matches nothing: the empty alternation *)
| Eps
| Lit (c : ascii)            (* a literal character, ignoring case *)
| Cls (k : cls)              (* \d, \s, \w *)
| Seq (a b : regex)
| Alt (a b : regex)          (* a|b *)
| Star (a : regex)           (* a*, greedy *)
| Group (a : regex)          (* (a), capturing group 1 *)
| WordBoundary               (* \b *)
| Bol                        (* ^ *)
| Eol.                       (* $ *)

(** [a?], [a+], [a{lo,lo+extra}], a literal word, [(?:a|b|...)] *)
Definition Opt (a : regex) : regex := Alt a Eps.
Definition Plus (a : regex) : regex := Seq a (Star a).
Fixpoint UpTo (extra : nat) (a : regex) : regex :=
  match extra with
  | 0 => Eps
  | S n => Opt (Seq a (UpTo n a))
  end.
Fixpoint Rep (lo extra : nat) (a : regex) : regex :=
  match lo with
  | 0 => UpTo extra a
  | S n => Seq a (Rep n extra a)
  end.
Fixpoint Str (s : string) : regex :=
  match s with
  | EmptyString => Eps
  | String c s' => Seq (Lit c) (Str s')
  end.
Definition Alts (rs : list regex) : regex := foldr Alt Void rs.
Definition Words (ws : list string) : regex := Alts (Str <$> ws).
Definition Seqs (rs : list regex) : regex := foldr Seq Eps rs.

(** A position in the subject: the character before it (for [\b] and
    [^]), the text after it, and the text captured by group 1 so far. *)
Record state := State {
  prev : option ascii;
  rest : list ascii;
  group1 : option (list ascii)
}.

Definition advance (c : ascii) (t : list ascii) (st : state) : state :=
  {| prev := Some c; rest := t; group1 := group1 st |}.

Definition word_at (c : option ascii) : bool :=
  match c with
  | Some c => is_word c
  | None => false
  end.

(** The text between two positions of the same subject. *)
Definition consumed (st st' : state) : list ascii :=
  take (length (rest st) - length (rest st')) (rest st).

(** Iterations of a greedy loop: one more iteration first, stopping
    here last.  An iteration that consumes nothing ends the loop. *)
Fixpoint star_loop (step : state → list state) (fuel : nat) (st : state)
    : list state :=
  match fuel with
  | 0 => [st]
  | S n =>
      (st' ← filter (λ st', length (rest st') < length (rest st)) (step st);
       star_loop step n st') ++ [st]
  end.

Fixpoint run (r : regex) (st : state) : list state :=
  match r with
  | Void => []
  | Eps => [st]
  | Lit c =>
      match rest st with
      | x :: t => if same_letter x c then [advance x t st] else []
      | [] => []
      end
  | Cls k =>
      match rest st with
      | x :: t => if in_cls k x then [advance x t st] else []
      | [] => []
      end
  | Seq a b => st' ← run a st; run b st'
  | Alt a b => run a st ++ run b st
  | Star a => star_loop (run a) (length (rest st)) st
  | Group a =>
      (λ st', {| prev := prev st'; rest := rest st';
                 group1 := Some (consumed st st') |}) <$> run a st
  | WordBoundary =>
      if xorb (word_at (prev st)) (word_at (head (rest st)))
      then [st] else []
  | Bol => match prev st with None => [st] | Some _ => [] end
  | Eol =>
      match rest st with
      | [] => [st]
      | [c] => if Ascii.eqb c "010" then [st] else []
      | _ => []
      end
  end.

(** A match object: where the match starts, [group(0)] and [group(1)]. *)
Record re_match := Match {
  start : nat;
  group0 : list ascii;
  group_1 : option (list ascii)
}.

Fixpoint search_from (r : regex) (offset : nat) (before : option ascii)
    (s : list ascii) : option re_match :=
  match head (run r (State before s None)) with
  | Some st' =>
      Some (Match offset (consumed (State before s None) st') (group1 st'))
  | None =>
      match s with
      | [] => None
      | c :: s' => search_from r (S offset) (Some c) s'
      end
  end.

(** [re.search(pattern, s, re.IGNORECASE)] *)
Definition search (r : regex) (s : string) : option re_match :=
  search_from r 0 None (list_ascii_of_string s).

(** A pattern of the source next to its syntax tree. *)
Definition pattern (source : string) (r : regex) : regex := r.

End Re.

(** ** chatbot.py *)

Module ChatBot.
Import Py Re.

(** *** The patterns of [__init__] *)

(** The tail shared by the budget patterns. *)
Definition amount : regex :=
  pattern "\$?(\d{3,5}(?:,\d{3})*)"
    (Seq (Opt (Lit "$"))
         (Group (Seq (Rep 3 2 (Cls Digit))
                     (Star (Seq (Lit ",") (Rep 3 0 (Cls Digit))))))).

Definition budget_patterns : list regex :=
  [ pattern "\$?(\d{3,5}(?:,\d{3})*)(?:\s*(?:dollars|USD|bucks))?"
      (Seq amount
         (Opt (Seq (Star (Cls Space))
                   (Words ["dollars"; "USD"; "bucks"]))));
    pattern "budget\s*(?:is|of)?\s*\$?(\d{3,5}(?:,\d{3})*)"
      (Seqs [Str "budget"; Star (Cls Space); Opt (Words ["is"; "of"]);
             Star (Cls Space); amount]);
    pattern "spend\s*(?:up to)?\s*\$?(\d{3,5}(?:,\d{3})*)"
      (Seqs [Str "spend"; Star (Cls Space); Opt (Str "up to");
             Star (Cls Space); amount]);
    pattern "(?:under|below|less than)\s*\$?(\d{3,5}(?:,\d{3})*)"
      (Seqs [Words ["under"; "below"; "less than"]; Star (Cls Space);
             amount]);
    pattern
      "(?:max|maximum)?\s*(?:budget|price)?\s*(?:of)?\s*\$?(\d{3,5}(?:,\d{3})*)"
      (Seqs [Opt (Words ["max"; "maximum"]); Star (Cls Space);
             Opt (Words ["budget"; "price"]); Star (Cls Space);
             Opt (Str "of"); Star (Cls Space); amount]) ].

(** The ["usage"] dictionary, in insertion order. *)
Definition usage_patterns : list (string * list regex) :=
  [ (UsageType.GAMING,
     [pattern "(?:gaming|games|gamer|play games)"
        (Words ["gaming"; "games"; "gamer"; "play games"]);
      pattern "(?:fps|shooter|mmo|rpg|strategy|simulation)"
        (Words ["fps"; "shooter"; "mmo"; "rpg"; "strategy";
                "simulation"])]);
    (UsageType.BUSINESS,
     [pattern "(?:business|work|office|professional|corporate)"
        (Words ["business"; "work"; "office"; "professional";
                "corporate"]);
      pattern "(?:presentations|spreadsheets|documents|meetings)"
        (Words ["presentations"; "spreadsheets"; "documents";
                "meetings"])]);
    (UsageType.STUDENT,
     [pattern "(?:student|school|college|university|campus|education)"
        (Words ["student"; "school"; "college"; "university"; "campus";
                "education"]);
      pattern "(?:study|studying|coursework|assignments|homework)"
        (Words ["study"; "studying"; "coursework"; "assignments";
                "homework"])]);
    (UsageType.CREATIVE,
     [pattern "(?:creative|design|art|artist|creator)"
        (Words ["creative"; "design"; "art"; "artist"; "creator"]);
      pattern
        "(?:photo|video|editing|photoshop|illustrator|premiere|after effects)"
        (Words ["photo"; "video"; "editing"; "photoshop"; "illustrator";
                "premiere"; "after effects"])]);
    (UsageType.PROGRAMMING,
     [pattern "(?:programming|coding|development|developer|software)"
        (Words ["programming"; "coding"; "development"; "developer";
                "software"]);
      pattern "(?:code|compile|development|IDE|programming)"
        (Words ["code"; "compile"; "development"; "IDE";
                "programming"])]) ].

Definition brand_pattern : regex :=
  pattern "(?:prefer|want|like)\s+(?:a\s+)?(\w+)(?:\s+laptop)?"
    (Seqs [Words ["prefer"; "want"; "like"]; Plus (Cls Space);
           Opt (Seq (Lit "a") (Plus (Cls Space)));
           Group (Plus (Cls Word));
           Opt (Seq (Plus (Cls Space)) (Str "laptop"))]).

(** What follows the number in the RAM pattern. *)
Definition ram_unit : regex :=
  pattern "\s*(?:GB|gigs?)?\s*(?:of)?\s*(?:RAM|memory)"
    (Seqs [Star (Cls Space);
           Opt (Alts [Str "GB"; Seq (Str "gig") (Opt (Lit "s"))]);
           Star (Cls Space); Opt (Str "of"); Star (Cls Space);
           Words ["RAM"; "memory"]]).

Definition ram_pattern : regex :=
  pattern "(\d+)\s*(?:GB|gigs?)?\s*(?:of)?\s*(?:RAM|memory)"
    (Seq (Group (Plus (Cls Digit))) ram_unit).

(** What follows the number in the storage pattern. *)
Definition storage_unit : regex :=
  pattern "\s*(?:GB|TB|gigs?)?\s*(?:of)?\s*(?:storage|SSD|hard drive|HDD)"
    (Seqs [Star (Cls Space);
           Opt (Alts [Str "GB"; Str "TB"; Seq (Str "gig") (Opt (Lit "s"))]);
           Star (Cls Space); Opt (Str "of"); Star (Cls Space);
           Words ["storage"; "SSD"; "hard drive"; "HDD"]]).

Definition storage_pattern : regex :=
  pattern
    "(\d+)\s*(?:GB|TB|gigs?)?\s*(?:of)?\s*(?:storage|SSD|hard drive|HDD)"
    (Seq (Group (Plus (Cls Digit))) storage_unit).

(** The pattern written in place in [_extract_preferences]. *)
Definition gpu_pattern : regex :=
  pattern "(?:dedicated|good|gaming)\s+(?:GPU|graphics)"
    (Seqs [Words ["dedicated"; "good"; "gaming"]; Plus (Cls Space);
           Words ["GPU"; "graphics"]]).

Definition greeting_patterns : list regex :=
  [ pattern "\b(?:hi|hello|hey|greetings|howdy)\b"
      (Seqs [WordBoundary;
             Words ["hi"; "hello"; "hey"; "greetings"; "howdy"];
             WordBoundary]);
    pattern "\b(?:good\s+(?:morning|afternoon|evening))\b"
      (Seqs [WordBoundary;
             Seqs [Str "good"; Plus (Cls Space);
                   Words ["morning"; "afternoon"; "evening"]];
             WordBoundary]);
    pattern "^(?:start|begin|help)$"
      (Seqs [Bol; Words ["start"; "begin"; "help"]; Eol]) ].

(** *** Conversions *)

(** The value of a string of decimal digits; [None] stands for the
    [ValueError] of [int] and [float] on any other string met here. *)
Fixpoint digits_value (acc : Z) (s : list ascii) : option Z :=
  match s with
  | [] => Some acc
  | c :: s' =>
      if is_digit c
      then digits_value (10 * acc + (Z.of_N (N_of_ascii c) - 48)) s'
      else None
  end.

Definition int (s : list ascii) : option Z :=
  match s with
  | [] => None
  | _ :: _ => digits_value 0 s
  end.

Definition float (s : list ascii) : option Qc := Qc_of_Z <$> int s.

(** [s.replace(',', '')] *)
Definition remove_commas (s : list ascii) : list ascii :=
  filter (λ c, c ≠ ","%char) s.

(** [match.group(1)] *)
Definition group (m : re_match) : list ascii := default [] (group_1 m).

(** *** The preference record

    The dictionary of preferences has at most the six keys written by
    [_extract_preferences]; an absent key is [None]. *)
Record preferences := Preferences {
  budget : option Qc;
  usage_type : option string;
  brand_preference : option string;
  min_ram : option Z;
  min_storage : option Z;
  prefer_gpu : option bool
}.

Definition empty_preferences : preferences :=
  Preferences None None None None None None.

(** One key of [old.update(new)]. *)
Definition update_key {A} (old new : option A) : option A :=
  match new with
  | Some v => Some v
  | None => old
  end.

(** [old.update(new)] *)
Definition update (old new : preferences) : preferences :=
  {| budget := update_key (budget old) (budget new);
     usage_type := update_key (usage_type old) (usage_type new);
     brand_preference :=
       update_key (brand_preference old) (brand_preference new);
     min_ram := update_key (min_ram old) (min_ram new);
     min_storage := update_key (min_storage old) (min_storage new);
     prefer_gpu := update_key (prefer_gpu old) (prefer_gpu new) |}.

(** *** [_extract_preferences] *)

(** The loop over the budget patterns: the first pattern that matches and
    whose group parses sets the budget and ends the loop. *)
Fixpoint extract_budget (patterns : list regex) (message : string)
    : option Qc :=
  match patterns with
  | [] => None
  | pattern :: patterns' =>
      match search pattern message with
      | Some m =>
          let budget_str := remove_commas (group m) in
          match float budget_str with
          | Some v => Some v
          | None => extract_budget patterns' message
          end
      | None => extract_budget patterns' message
      end
  end.

(** The loops over the usage types and over the patterns of each. *)
Fixpoint any_match (patterns : list regex) (message : string) : bool :=
  match patterns with
  | [] => false
  | pattern :: patterns' =>
      match search pattern message with
      | Some _ => true
      | None => any_match patterns' message
      end
  end.

Fixpoint extract_usage (table : list (string * list regex))
    (message : string) : option string :=
  match table with
  | [] => None
  | (usage, patterns) :: table' =>
      if any_match patterns message then Some usage
      else extract_usage table' message
  end.

Definition common_brands : list string :=
  ["dell"; "hp"; "lenovo"; "asus"; "acer"; "apple"; "microsoft"; "msi";
   "razer"].

Definition extract_brand (message : string) : option string :=
  match search brand_pattern message with
  | Some m =>
      let brand := lower (string_of_list_ascii (group m)) in
      if bool_decide (brand ∈ common_brands) then Some brand else None
  | None => None
  end.

Definition extract_ram (message : string) : option Z :=
  match search ram_pattern message with
  | Some m => int (group m)
  | None => None
  end.

Definition extract_storage (message : string) : option Z :=
  match search storage_pattern message with
  | Some m =>
      match int (group m) with
      | Some storage_value =>
          if contains "TB" (upper (string_of_list_ascii (group0 m)))
          then Some (storage_value * 1000)%Z
          else Some storage_value
      | None => None
      end
  | None => None
  end.

Definition extract_gpu (message : string) : option bool :=
  match search gpu_pattern message with
  | Some _ => Some true
  | None => None
  end.

Definition _extract_preferences (message : string) : preferences :=
  {| budget := extract_budget budget_patterns message;
     usage_type := extract_usage usage_patterns message;
     brand_preference := extract_brand message;
     min_ram := extract_ram message;
     min_storage := extract_storage message;
     prefer_gpu := extract_gpu message |}.

Definition _is_greeting (message : string) : bool :=
  any_match greeting_patterns message.

(** ["budget" in preferences and "usage_type" in preferences] *)
Definition _has_sufficient_preferences (p : preferences) : bool :=
  bool_decide (is_Some (budget p)) && bool_decide (is_Some (usage_type p)).

(** *** Conversations *)

(** The text of a message: a literal, or one of the two formatted
    messages, kept with the values they are formatted from. *)
Inductive text :=
| Plain (s : string)
| RecommendationsText (recommendations : list scored_laptop)
| UsageQuestion (budget : Qc).

Definition greeting_text : string :=
  "Hello! I'm your laptop recommendation assistant. I can help you find the perfect laptop based on your needs. What's your budget for a new laptop?".
Definition no_match_text : string :=
  "I couldn't find any laptops matching your exact criteria. Would you like to adjust your budget or requirements?".
Definition budget_question : string :=
  "What's your budget for a new laptop?".
Definition brand_question : string :=
  "Do you have a preferred brand? (e.g., Dell, HP, Lenovo, Asus, Apple)".
Definition open_question : string :=
  "Can you tell me more about what you're looking for in a laptop? Any specific features that are important to you?".

Record chat_message := ChatMessage {
  msg_text : text;
  sender : string;
  timestamp : string
}.

Record conversation := Conversation {
  conv_preferences : preferences;
  messages : list chat_message;
  stage : string
}.

Definition new_conversation : conversation :=
  {| conv_preferences := empty_preferences; messages := [];
     stage := "greeting" |}.

Record ChatRequest := {
  req_message : string;
  req_conversation_id : option string
}.

Record ChatResponse := {
  resp_message : text;
  resp_recommendations : option (list scored_laptop);
  resp_conversation_id : string;
  resp_extracted_preferences : preferences
}.

(** The bot: the catalog of its recommendation engine and the table of
    conversations. *)
Record chatbot := {
  laptop_data : list laptop;
  conversations : gmap string conversation
}.

(** What a turn reads from outside: [uuid.uuid4()] and the two
    [datetime.now()] stamps. *)
Record environment := {
  uuid4 : string;
  now_user : string;
  now_bot : string
}.

Fixpoint lstrip (s : list ascii) : list ascii :=
  match s with
  | c :: s' => if is_space c then lstrip s' else s
  | [] => []
  end.

(** [str.strip()] *)
Definition strip (s : string) : string :=
  string_of_list_ascii
    (reverse (lstrip (reverse (lstrip (list_ascii_of_string s))))).

Definition _ask_for_missing_preferences (p : preferences) : text :=
  match budget p with
  | None => Plain budget_question
  | Some b =>
      match usage_type p with
      | None => UsageQuestion b
      | Some _ =>
          match brand_preference p with
          | None => Plain brand_question
          | Some _ => Plain open_question
          end
      end
  end.

Definition _get_recommendations (self : chatbot) (p : preferences)
    : M event (list scored_laptop) :=
  let budget := default (Qc_of_Z 1000) (budget p) in
  let usage_type := default UsageType.GENERAL (usage_type p) in
  let prefer_gpu := default false (prefer_gpu p) in
  emit (EngineCall budget usage_type (brand_preference p) (min_ram p)
          (min_storage p) prefer_gpu);;
  RecommendationEngine.get_recommendations (laptop_data self) budget
    usage_type (brand_preference p) (min_ram p) (min_storage p) prefer_gpu
    5.

(** [process_message]; [conv] is [conversation] and [history] its message
    list once the user's message is appended.  The result is the bot after
    the turn (the updates made before an exception are kept), the trace of
    the turn, and the response or the exception. *)
Definition process_message (self : chatbot) (env : environment)
    (request : ChatRequest) : chatbot * M event ChatResponse :=
  let message := strip (req_message request) in
  let conversation_id :=
    if RecommendationEngine.truthy (req_conversation_id request)
    then default "" (req_conversation_id request)
    else uuid4 env in
  let conv :=
    default new_conversation (conversations self !! conversation_id) in
  let history :=
    messages conv ++ [ChatMessage (Plain message) "user" (now_user env)] in
  let extracted_preferences := _extract_preferences message in
  let preferences :=
    update (conv_preferences conv) extracted_preferences in
  let store (c : conversation) : chatbot :=
    {| laptop_data := laptop_data self;
       conversations := <[conversation_id := c]> (conversations self) |} in
  let reply (new_stage : string) (t : list event) (response_text : text) :=
    (store {| conv_preferences := preferences;
              messages := history ++ [ChatMessage response_text "bot"
                                        (now_bot env)];
              stage := new_stage |},
     (t, Ok {| resp_message := response_text;
               resp_recommendations := None;
               resp_conversation_id := conversation_id;
               resp_extracted_preferences := preferences |})) in
  if String.eqb (stage conv) "greeting" || _is_greeting message
  then reply "getting_preferences" [] (Plain greeting_text)
  else if _has_sufficient_preferences preferences then
    match _get_recommendations self preferences with
    | (t, Ok (r :: rs)) =>
        let recommendations := r :: rs in
        (store {| conv_preferences := preferences; messages := history;
                  stage := "recommendations" |},
         (t, Ok {| resp_message :=
                     RecommendationsText (slice_to 3 recommendations);
                   resp_recommendations :=
                     Some (slice_to 3 recommendations);
                   resp_conversation_id := conversation_id;
                   resp_extracted_preferences := preferences |}))
    | (t, Ok []) => reply (stage conv) t (Plain no_match_text)
    | (t, Raise e) =>
        (store {| conv_preferences := preferences; messages := history;
                  stage := stage conv |},
         (t, Raise e))
    end
  else
    reply (stage conv) []
      (_ask_for_missing_preferences preferences).

End ChatBot.

(** ** models.py: the validated request models *)

Module Models.
Import Py.

(** What a validator gives: the value, or a [ValueError]. *)
Inductive checked (A : Type) :=
| Valid (v : A)
| ValueError (msg : string).
Global Arguments Valid {A} v.
Global Arguments ValueError {A} msg.

(** The fields of [UserPreference]; [usage_type] is declared with the
    enumeration [UsageType]. *)
Record UserPreference := {
  budget : Qc;
  usage_type : string;
  brand_preference : option string;
  min_ram : option Z;
  min_storage : option Z;
  prefer_gpu : bool;
  weight_preference : option string;
  os_preference : option string
}.




(** The validator of [ChatRequest.message]. *)
Definition message_must_not_be_empty (v : string) : checked string :=
  if String.length v <? 1 then ValueError "message must not be empty"
  else Valid v.



End Models.

(** ** main.py: the endpoints that call the engine and the chatbot

    The module-level [chatbot] and [laptop_data] are passed explicitly. *)

Module Api.
Import Py.

(** The [detail] of an [HTTPException]: [str(e)] of a caught exception,
    or the message about an unknown conversation. *)
Inductive detail :=
| ExnDetail (e : exn)
| ConversationNotFound (conversation_id : string).

Inductive http (A : Type) :=
| Response (body : A)
| HTTPException (status_code : Z) (d : detail).
Global Arguments Response {A} body.
Global Arguments HTTPException {A} status_code d.

Record LaptopResponse := {
  recommendations : list scored_laptop;
  count : nat;
  (* f"Found {n} laptops matching your criteria." *)
  message_count : nat
}.

(** [POST /api/chat] *)
Definition chat (bot : ChatBot.chatbot) (env : ChatBot.environment)
    (request : ChatBot.ChatRequest)
    : ChatBot.chatbot * http ChatBot.ChatResponse :=
  let '(bot', m) := ChatBot.process_message bot env request in
  (bot',
   match outcome m with
   | Ok response => Response response
   | Raise e => HTTPException 500 (ExnDetail e)
   end).

(** [POST /api/recommendations] *)
Definition get_recommendations (laptop_data : list laptop)
    (preferences : Models.UserPreference) : http LaptopResponse :=
  match outcome (RecommendationEngine.get_recommendations laptop_data
                   (Models.budget preferences)
                   (Models.usage_type preferences)
                   (Models.brand_preference preferences)
                   (Models.min_ram preferences)
                   (Models.min_storage preferences)
                   (Models.prefer_gpu preferences) 5) with
  | Ok results =>
      Response {| recommendations := results; count := length results;
                  message_count := length results |}
  | Raise e => HTTPException 500 (ExnDetail e)
  end.

Record history := {
  history_conversation_id : string;
  history_messages : list ChatBot.chat_message;
  history_preferences : ChatBot.preferences
}.

(** [GET /api/conversations/{conversation_id}/history] *)
Definition get_conversation_history (bot : ChatBot.chatbot)
    (conversation_id : string) : http history :=
  match ChatBot.conversations bot !! conversation_id with
  | None => HTTPException 404 (ConversationNotFound conversation_id)
  | Some conv =>
      Response {| history_conversation_id := conversation_id;
                  history_messages := ChatBot.messages conv;
                  history_preferences := ChatBot.conv_preferences conv |}
  end.

(** [DELETE /api/conversations/{conversation_id}]; the body of a success
    is the message about the deleted conversation. *)
Definition delete_conversation (bot : ChatBot.chatbot)
    (conversation_id : string) : ChatBot.chatbot * http string :=
  match ChatBot.conversations bot !! conversation_id with
  | None => (bot, HTTPException 404 (ConversationNotFound conversation_id))
  | Some _ =>
      ({| ChatBot.laptop_data := ChatBot.laptop_data bot;
          ChatBot.conversations :=
            delete conversation_id (ChatBot.conversations bot) |},
       Response conversation_id)
  end.

End Api.

(** * Vocabulary of the statements *)

Module Spec.
Import Py RecommendationEngine.

(** The order in which [sorted(..., reverse=True)] leaves its result. *)
Definition by_score_desc (a b : scored_laptop) : Prop :=
  (score b ≤ score a)%Qc.

(** The events of the strict and of the relaxed pass. *)
Definition strict_call (budget : Qc) (usage_type : string)
    (brand_preference : option string) (min_ram min_storage : option Z)
    (prefer_gpu : bool) : event :=
  FilterCall budget usage_type brand_preference min_ram min_storage
    prefer_gpu.

Definition relaxed_call (budget : Qc) (usage_type : string)
    (prefer_gpu : bool) (ram storage : Z) : event :=
  FilterCall (budget * d 11 10)%Qc usage_type None (Some ram)
    (Some storage) prefer_gpu.

(** A laptop with the score the scoring pass gives it. *)
Definition with_score (usage_type : string) (budget : Qc) (l : laptop)
    : scored_laptop :=
  Scored l (laptop_score (requirements_or_general usage_type) budget l).

(** The scoring pass followed by the final slice. *)
Definition ranked (laptops : list laptop) (usage_type : string)
    (budget : Qc) (limit : Z) : result (list scored_laptop) :=
  outcome (scored_laptops ← _score_laptops laptops usage_type budget;
           mret (slice_to limit scored_laptops)).

(** The two-laptop catalog of the scenarios. *)
Definition dell : laptop :=
  {| laptop_id := "1"; brand := "Dell"; model := "XPS"; price := Qc_of_Z 1200;
     processor := "i7"; ram := 16; storage := 512; gpu := None;
     display := None; battery_life := None; weight := None; os := None |}.

Definition apple : laptop :=
  {| laptop_id := "2"; brand := "Apple"; model := "Air";
     price := Qc_of_Z 1100; processor := "M2"; ram := 8; storage := 256;
     gpu := Some "M2 GPU"; display := None; battery_life := None;
     weight := None; os := None |}.

(** A laptop with its display description erased, and the same for a
    scored laptop and for an outcome. *)
Definition forget_display (l : laptop) : laptop :=
  {| laptop_id := laptop_id l; brand := brand l; model := model l;
     price := price l; processor := processor l; ram := ram l;
     storage := storage l; gpu := gpu l; display := None;
     battery_life := battery_life l; weight := weight l; os := os l |}.

Definition forget_display_scored (x : scored_laptop) : scored_laptop :=
  Scored (forget_display (scored x)) (score x).

Definition forget_display_result (r : result (list scored_laptop))
    : result (list scored_laptop) :=
  match r with
  | Ok out => Ok (forget_display_scored <$> out)
  | Raise e => Raise e
  end.

(** An entry of the table without its weight for the display. *)
Definition without_display_weight (reqs : requirements) : requirements :=
  {| req_min_ram := req_min_ram reqs;
     req_min_storage := req_min_storage reqs;
     req_min_battery_life := req_min_battery_life reqs;
     req_gpu_required := req_gpu_required reqs;
     req_processor_keywords := req_processor_keywords reqs;
     req_importance := delete "display" (req_importance reqs) |}.

End Spec.

Module ReSpec.
Import Py Re.

(** The characters that some atom of [r] accepts. *)
Fixpoint may_consume (r : regex) (x : ascii) : bool :=
  match r with
  | Lit c => same_letter x c
  | Cls k => in_cls k x
  | Seq a b | Alt a b => may_consume a x || may_consume b x
  | Star a | Group a => may_consume a x
  | Void | Eps | WordBoundary | Bol | Eol => false
  end.

(** [r] has no capturing group. *)
Fixpoint group_free (r : regex) : bool :=
  match r with
  | Group _ => false
  | Seq a b | Alt a b => group_free a && group_free b
  | Star a => group_free a
  | Void | Eps | Lit _ | Cls _ | WordBoundary | Bol | Eol => true
  end.

(** [r] can match the empty text, and the characters with which a
    non-empty match of [r] can begin. *)
Fixpoint nullable (r : regex) : bool :=
  match r with
  | Void | Lit _ | Cls _ => false
  | Eps | Star _ | WordBoundary | Bol | Eol => true
  | Seq a b => nullable a && nullable b
  | Alt a b => nullable a || nullable b
  | Group a => nullable a
  end.

Fixpoint first (r : regex) (x : ascii) : bool :=
  match r with
  | Lit c => same_letter x c
  | Cls k => in_cls k x
  | Seq a b => first a x || (nullable a && first b x)
  | Alt a b => first a x || first b x
  | Star a | Group a => first a x
  | Void | Eps | WordBoundary | Bol | Eol => false
  end.

(** A match of [r] can start where the text [s] starts. *)
Definition follows (r : regex) (s : list ascii) : Prop :=
  ∃ st st', rest st = s ∧ st' ∈ run r st.

(** Three decimal digits in a row, at the start of a text and anywhere
    in it. *)
Definition three_digits_at (s : list ascii) : bool :=
  match s with
  | a :: b :: c :: _ => is_digit a && is_digit b && is_digit c
  | _ => false
  end.

Fixpoint has_three_digits (s : list ascii) : bool :=
  three_digits_at s ||
  match s with
  | [] => false
  | _ :: s' => has_three_digits s'
  end.

(** The texts that the group of the budget patterns can capture: three
    digits, then digits and commas. *)
Definition amount_text (w : list ascii) : Prop :=
  ∃ a b c t,
    w = a :: b :: c :: t ∧
    is_digit a = true ∧ is_digit b = true ∧ is_digit c = true ∧
    Forall (λ x, is_digit x = true ∨ x = ","%char) t.

(** The text after a dollar amount lets the amount go on: a digit, or a
    comma and three digits. *)
Definition amount_continues (post : list ascii) : bool :=
  match post with
  | [] => false
  | x :: t => is_digit x || (Ascii.eqb x "," && three_digits_at t)
  end.

(** A dollar amount can be matched where the text [s] starts. *)
Definition amount_at (s : list ascii) : bool :=
  three_digits_at s ||
  match s with
  | [] => false
  | x :: t => Ascii.eqb x "$" && three_digits_at t
  end.

(** [str(n)] for a number of at most five digits. *)
Definition digit_char (n : Z) : ascii := ascii_of_N (Z.to_N (48 + n)).

Fixpoint decimal_digits (fuel : nat) (n : Z) : list ascii :=
  match fuel with
  | 0 => []
  | S fuel' =>
      (if (n <? 10)%Z then [] else decimal_digits fuel' (n / 10))
      ++ [digit_char (n mod 10)]
  end.

Definition decimal (n : Z) : list ascii := decimal_digits 5 n.


(** A pattern whose matches all capture an amount that lies in the
    subject. *)
Definition captures_amount (r : regex) : Prop :=
  ∀ st st', st' ∈ run r st →
    ∃ w u v, group1 st' = Some w ∧ amount_text w ∧ rest st = u ++ w ++ v.

(** A pattern whose matches all capture a number at their start and go on
    where the number ends. *)
Definition captures_number_then (unit : regex) (r : regex) : Prop :=
  ∀ st st', st' ∈ run r st →
    ∃ w t, group1 st' = Some w ∧ w ≠ [] ∧ Forall (λ x, is_digit x = true) w ∧
           rest st = w ++ t ∧ follows unit t.

(** The utterance [s] has the token [$n], set off by white space. *)
Definition dollar_token (n : Z) (s : list ascii) : Prop :=
  ∃ pre post,
    s = pre ++ "$"%char :: decimal n ++ post ∧
    (∀ c, last pre = Some c → is_space c = true) ∧
    (∀ c, head post = Some c → is_space c = true).

(** The number captured by the match [m] lies outside the token [$n] that
    follows [pre]. *)
Definition outside_token (pre : list ascii) (n : Z) (m : re_match) : Prop :=
  start m + length (default [] (group_1 m)) ≤ length pre ∨
  length pre + 1 + length (decimal n) ≤ start m.

End ReSpec.

Module ChatSpec.
Import Py ChatBot.

(** The message, the conversation and the merged preference record that a
    turn works on. *)
Definition turn_message (request : ChatRequest) : string :=
  strip (req_message request).

Definition turn_conversation_id (env : environment) (request : ChatRequest)
    : string :=
  if RecommendationEngine.truthy (req_conversation_id request)
  then default "" (req_conversation_id request)
  else uuid4 env.

Definition turn_conversation (self : chatbot) (env : environment)
    (request : ChatRequest) : conversation :=
  default new_conversation
    (conversations self !! turn_conversation_id env request).

Definition merged_preferences (self : chatbot) (env : environment)
    (request : ChatRequest) : preferences :=
  update (conv_preferences (turn_conversation self env request))
    (_extract_preferences (turn_message request)).

(** A turn is handled by the greeting branch when the conversation is still
    in its first stage or the message itself is a greeting. *)
Definition greeting_turn (self : chatbot) (env : environment)
    (request : ChatRequest) : bool :=
  String.eqb (stage (turn_conversation self env request)) "greeting"
  || _is_greeting (turn_message request).

(** The engine was called during a turn. *)
Definition is_engine_call (e : event) : bool :=
  match e with
  | EngineCall _ _ _ _ _ _ => true
  | FilterCall _ _ _ _ _ _ => false
  end.

Definition engine_invoked (t : list event) : Prop :=
  ∃ e, e ∈ t ∧ is_engine_call e = true.

(** Every key of [old] is a key of [new]. *)
Definition keeps_keys (old new : preferences) : Prop :=
  (is_Some (budget old) → is_Some (budget new)) ∧
  (is_Some (usage_type old) → is_Some (usage_type new)) ∧
  (is_Some (brand_preference old) → is_Some (brand_preference new)) ∧
  (is_Some (min_ram old) → is_Some (min_ram new)) ∧
  (is_Some (min_storage old) → is_Some (min_storage new)) ∧
  (is_Some (prefer_gpu old) → is_Some (prefer_gpu new)).

(** Every item of [extracted] is an item of [new]. *)
Definition has_items (extracted new : preferences) : Prop :=
  (∀ v, budget extracted = Some v → budget new = Some v) ∧
  (∀ v, usage_type extracted = Some v → usage_type new = Some v) ∧
  (∀ v, brand_preference extracted = Some v →
        brand_preference new = Some v) ∧
  (∀ v, min_ram extracted = Some v → min_ram new = Some v) ∧
  (∀ v, min_storage extracted = Some v → min_storage new = Some v) ∧
  (∀ v, prefer_gpu extracted = Some v → prefer_gpu new = Some v).

(** The keys that [new] has and [extracted] lacks come from [old]. *)
Definition other_items_from (old extracted new : preferences) : Prop :=
  (budget extracted = None → budget new = budget old) ∧
  (usage_type extracted = None → usage_type new = usage_type old) ∧
  (brand_preference extracted = None →
   brand_preference new = brand_preference old) ∧
  (min_ram extracted = None → min_ram new = min_ram old) ∧
  (min_storage extracted = None → min_storage new = min_storage old) ∧
  (prefer_gpu extracted = None → prefer_gpu new = prefer_gpu old).

(** A bot with the two-laptop catalog and no conversation yet. *)
Definition fresh_bot : chatbot :=
  {| laptop_data := [Spec.dell; Spec.apple]; conversations := ∅ |}.

Definition sample_env : environment :=
  {| uuid4 := "c0"; now_user := "t0"; now_bot := "t1" |}.

Definition say (message : string) : ChatRequest :=
  {| req_message := message; req_conversation_id := Some "c0" |}.

End ChatSpec.

(** ** Further vocabulary: the engine *)

Module EngineSpec.
Import Py RecommendationEngine.

(** The list a call returned; nothing when it raised. *)
Definition returned {A} (r : result (list A)) : list A :=
  match r with
  | Ok out => out
  | Raise _ => []
  end.

(** The thresholds and the GPU requirement that a filter pass applies. *)
Definition min_ram_used (usage_type : string) (min_ram : option Z) : Z :=
  match min_ram with
  | Some v => v
  | None => default 4%Z (req_min_ram (requirements_or_general usage_type))
  end.

Definition min_storage_used (usage_type : string) (min_storage : option Z)
    : Z :=
  match min_storage with
  | Some v => v
  | None =>
      default 128%Z (req_min_storage (requirements_or_general usage_type))
  end.

Definition gpu_needed (usage_type : string) (prefer_gpu : bool) : bool :=
  default false (req_gpu_required (requirements_or_general usage_type))
  || prefer_gpu.

(** A laptop meets the constraints of a filter pass. *)
Definition meets (budget : Qc) (usage_type : string)
    (brand_preference : option string) (min_ram min_storage : option Z)
    (prefer_gpu : bool) (l : laptop) : Prop :=
  (price l ≤ budget)%Qc ∧
  (min_ram_used usage_type min_ram ≤ ram l)%Z ∧
  (min_storage_used usage_type min_storage ≤ storage l)%Z ∧
  (truthy brand_preference = true →
   lower (brand l) = lower (default "" brand_preference)) ∧
  (gpu_needed usage_type prefer_gpu = true → has_gpu l = true).

(** The laptops that reach the scoring pass: those of the strict pass, or
    of the relaxed pass when the strict pass finds none. *)
Definition candidates (data : list laptop) (budget : Qc)
    (usage_type : string) (brand_preference : option string)
    (min_ram min_storage : option Z) (prefer_gpu : bool) : list laptop :=
  match filter_results data budget usage_type brand_preference min_ram
          min_storage prefer_gpu with
  | [] =>
      filter_results data (budget * d 11 10)%Qc usage_type None None None
        prefer_gpu
  | strict => strict
  end.



End EngineSpec.

(** ** Further vocabulary: the turns of a conversation *)

Module TurnSpec.
Import Py ChatBot ChatSpec.

(** The user's message as a turn records it. *)
Definition user_message (env : environment) (request : ChatRequest)
    : chat_message :=
  ChatMessage (Plain (turn_message request)) "user" (now_user env).

(** The reply that a turn records: none when the response carries
    recommendations, and none when the engine raised. *)
Definition recorded_reply (env : environment) (r : result ChatResponse)
    : list chat_message :=
  match r with
  | Ok response =>
      match resp_recommendations response with
      | None => [ChatMessage (resp_message response) "bot" (now_bot env)]
      | Some _ => []
      end
  | Raise _ => []
  end.

(** The conversation of a turn once the turn is over. *)
Definition conversation_after (self : chatbot) (env : environment)
    (request : ChatRequest) : option conversation :=
  conversations (process_message self env request).1
    !! turn_conversation_id env request.

(** Preferences as utterances build them up: the budget is not negative
    and the usage type is one of the enumeration. *)
Definition sound_preferences (p : preferences) : Prop :=
  (∀ b, budget p = Some b → (0 ≤ b)%Qc) ∧
  (∀ u, usage_type p = Some u → u ∈ UsageType.members).

(** A bot whose catalog has positive prices and whose conversations hold
    such preferences. *)
Definition sound_bot (self : chatbot) : Prop :=
  Forall (λ l, (0 < price l)%Qc) (laptop_data self) ∧
  ∀ conversation_id conv,
    conversations self !! conversation_id = Some conv →
    sound_preferences (conv_preferences conv).

End TurnSpec.

(** ** Further vocabulary: lower case *)

Module CaseSpec.
Import Py Re.

(** A text, a position and a match of the subject put into lower case. *)
Definition lower_text (w : list ascii) : list ascii := lower_ascii <$> w.

Definition lower_state (st : state) : state :=
  State (lower_ascii <$> prev st) (lower_text (rest st))
    (lower_text <$> group1 st).

Definition lower_match (m : re_match) : re_match :=
  Match (start m) (lower_text (group0 m)) (lower_text <$> group_1 m).

End CaseSpec.

(** * Properties *)

(** ** The recommendation engine *)

Section engine.
Import Py RecommendationEngine Spec.

Implicit Types (data laptops : list laptop) (l : laptop).
Implicit Types (budget : Qc) (usage_type : string) (limit : Z).
Implicit Types (brand_preference : option string).
Implicit Types (min_ram min_storage : option Z) (prefer_gpu : bool).

(** *** The table *)

Lemma usage_requirements_lookup usage_type reqs :
  usage_requirements !! usage_type = Some reqs →
  (usage_type, reqs) ∈ usage_requirements_items.
Proof. apply elem_of_list_to_map_2. Qed.

Lemma usage_requirements_members usage_type :
  usage_type ∈ UsageType.members ↔
  is_Some (usage_requirements !! usage_type).
Proof.
  split.
  - unfold UsageType.members. rewrite !elem_of_cons, elem_of_nil.
    intros [->|[->|[->|[->|[->|[->|[]]]]]]]; vm_compute; eauto.
  - intros [reqs Hreqs%usage_requirements_lookup].
    unfold usage_requirements_items in Hreqs.
    rewrite !elem_of_cons, elem_of_nil in Hreqs.
    destruct Hreqs as [H|[H|[H|[H|[H|[H|[]]]]]]];
      injection H as -> _; unfold UsageType.members; set_solver.
Qed.


(** *** The filter *)

Lemma filter_results_sublist data budget usage_type brand_preference
    min_ram min_storage prefer_gpu :
  filter_results data budget usage_type brand_preference min_ram
    min_storage prefer_gpu `sublist_of` data.
Proof.
  unfold filter_results.
  repeat first
    [ case_match
    | etrans; [apply sublist_filter|]
    | reflexivity ].
Qed.


Lemma filter_sublist_mono {A} (P : A → Prop) `{!∀ x, Decision (P x)}
    (xs ys : list A) :
  xs `sublist_of` ys → filter P xs `sublist_of` filter P ys.
Proof.
  induction 1 as [|x xs ys _ IH|x xs ys _ IH]; [done| |].
  - rewrite !(filter_cons _ x). case_decide; [by constructor|done].
  - rewrite (filter_cons _ x). case_decide; [by constructor|done].
Qed.

(** *** Slices *)

Lemma slice_to_sublist {A} (n : Z) (xs : list A) :
  slice_to n xs `sublist_of` xs.
Proof. unfold slice_to. case_match; apply sublist_take. Qed.

Lemma slice_to_prefix {A} (n : Z) (xs : list A) :
  slice_to n xs `prefix_of` xs.
Proof. unfold slice_to. case_match; apply prefix_take. Qed.

Lemma slice_to_nil {A} (n : Z) : slice_to n (@nil A) = [].
Proof. unfold slice_to. case_match; apply take_nil. Qed.

Lemma slice_to_length {A} (n : Z) (xs : list A) :
  (0 ≤ n)%Z → (Z.of_nat (length (slice_to n xs)) ≤ n)%Z.
Proof.
  intros Hn. unfold slice_to.
  destruct (Z.leb_spec 0 n); [|lia]. rewrite length_take. lia.
Qed.

Lemma slice_to_fmap {A B} (f : A → B) (n : Z) (xs : list A) :
  slice_to n (f <$> xs) = f <$> slice_to n xs.
Proof.
  unfold slice_to. rewrite length_fmap. case_match; by rewrite fmap_take.
Qed.

(** *** The sort *)

Lemma insert_by_score_perm x xs : insert_by_score x xs ≡ₚ x :: xs.
Proof.
  induction xs as [|y xs IH]; simpl; [done|].
  case_decide; [|done]. rewrite IH. apply Permutation_swap.
Qed.

Lemma sorted_by_score_desc_perm xs : sorted_by_score_desc xs ≡ₚ xs.
Proof.
  induction xs as [|x xs IH]; simpl; [done|].
  by rewrite insert_by_score_perm, IH.
Qed.

Lemma sorted_by_score_desc_elem_of x xs :
  x ∈ sorted_by_score_desc xs ↔ x ∈ xs.
Proof. by rewrite sorted_by_score_desc_perm. Qed.

Lemma insert_by_score_sorted x xs :
  StronglySorted by_score_desc xs →
  StronglySorted by_score_desc (insert_by_score x xs).
Proof.
  induction 1 as [|y xs Hxs IH Hy]; simpl.
  - repeat constructor.
  - case_decide as Hlt.
    + constructor; [done|].
      rewrite insert_by_score_perm. constructor; [|done].
      unfold by_score_desc. by apply Qclt_le_weak.
    + apply Qcnot_lt_le in Hlt.
      constructor; [by constructor|]. constructor; [done|].
      eapply Forall_impl; [exact Hy|]. unfold by_score_desc.
      intros z Hz. by etrans.
Qed.

Lemma sorted_by_score_desc_sorted xs :
  StronglySorted by_score_desc (sorted_by_score_desc xs).
Proof.
  induction xs; simpl; [constructor|by apply insert_by_score_sorted].
Qed.

(** Stability: the elements of any one score keep their order. *)
Lemma insert_by_score_stable (k : Qc) x xs :
  filter (λ y, score y = k) (insert_by_score x xs)
  = filter (λ y, score y = k) (x :: xs).
Proof.
  induction xs as [|y xs IH]; simpl; [done|].
  case_decide as Hlt; [|done].
  rewrite (filter_cons _ y), IH, !(filter_cons _ x), (filter_cons _ y).
  repeat case_decide; try done.
  subst. by destruct (irreflexivity Qclt (score y)); congruence.
Qed.

Lemma sorted_by_score_desc_stable (k : Qc) xs :
  filter (λ y, score y = k) (sorted_by_score_desc xs)
  = filter (λ y, score y = k) xs.
Proof.
  induction xs as [|x xs IH]; simpl; [done|].
  by rewrite insert_by_score_stable, !filter_cons, IH.
Qed.

(** *** The three ways through [get_recommendations] *)

Lemma ranked_eq laptops usage_type budget limit :
  ranked laptops usage_type budget limit =
  match laptops with
  | [] => Ok []
  | _ :: _ =>
      if decide (budget = 0%Qc) then Raise ZeroDivisionError
      else Ok (slice_to limit
                 (sorted_by_score_desc
                    ((λ l, Scored l (laptop_score
                                       (requirements_or_general usage_type)
                                       budget l)) <$> laptops)))
  end.
Proof.
  unfold ranked, _score_laptops. destruct laptops.
  - simpl. by rewrite slice_to_nil.
  - by case_decide.
Qed.

Lemma get_recommendations_strict data budget usage_type brand_preference
    min_ram min_storage prefer_gpu limit :
  filter_results data budget usage_type brand_preference min_ram
    min_storage prefer_gpu ≠ [] →
  get_recommendations data budget usage_type brand_preference min_ram
    min_storage prefer_gpu limit =
  ([strict_call budget usage_type brand_preference min_ram min_storage
      prefer_gpu],
   ranked (filter_results data budget usage_type brand_preference min_ram
             min_storage prefer_gpu) usage_type budget limit).
Proof.
  intros Hne. unfold get_recommendations, _filter_laptops, ranked.
  destruct (filter_results _ _ _ _ _ _ _) as [|l ls] eqn:Hf; [done|].
  simpl. by case_decide.
Qed.

Lemma get_recommendations_relaxed data budget usage_type brand_preference
    min_ram min_storage prefer_gpu limit reqs :
  filter_results data budget usage_type brand_preference min_ram
    min_storage prefer_gpu = [] →
  usage_requirements !! usage_type = Some reqs →
  get_recommendations data budget usage_type brand_preference min_ram
    min_storage prefer_gpu limit =
  ([strict_call budget usage_type brand_preference min_ram min_storage
      prefer_gpu;
    relaxed_call budget usage_type prefer_gpu
      (default 4%Z (req_min_ram reqs))
      (default 128%Z (req_min_storage reqs))],
   ranked (filter_results data (budget * d 11 10)%Qc usage_type None
             (Some (default 4%Z (req_min_ram reqs)))
             (Some (default 128%Z (req_min_storage reqs))) prefer_gpu)
     usage_type budget limit).
Proof.
  intros Hf Hreqs.
  unfold get_recommendations, _filter_laptops, ranked, getitem.
  rewrite Hf, Hreqs. simpl. unfold relaxed_budget.
  generalize (filter_results data (budget * d 11 10)%Qc usage_type None
                (Some (default 4%Z (req_min_ram reqs)))
                (Some (default 128%Z (req_min_storage reqs))) prefer_gpu).
  intros [|l ls].
  - simpl. by rewrite slice_to_nil.
  - unfold _score_laptops. by case_decide.
Qed.

Lemma get_recommendations_unknown data budget usage_type brand_preference
    min_ram min_storage prefer_gpu limit :
  filter_results data budget usage_type brand_preference min_ram
    min_storage prefer_gpu = [] →
  usage_requirements !! usage_type = None →
  get_recommendations data budget usage_type brand_preference min_ram
    min_storage prefer_gpu limit =
  ([strict_call budget usage_type brand_preference min_ram min_storage
      prefer_gpu],
   Raise (KeyError usage_type)).
Proof.
  intros Hf Hreqs. unfold get_recommendations, _filter_laptops, getitem.
  by rewrite Hf, Hreqs.
Qed.

Lemma ranked_returns laptops usage_type budget limit :
  budget ≠ 0%Qc → ∃ out, ranked laptops usage_type budget limit = Ok out.
Proof.
  intros Hb. rewrite ranked_eq. destruct laptops; [by eauto|].
  case_decide; [done|by eauto].
Qed.

(** What [ranked] returns, when it returns. *)
Lemma ranked_Ok laptops usage_type budget limit out :
  ranked laptops usage_type budget limit = Ok out →
  out = slice_to limit
          (sorted_by_score_desc (with_score usage_type budget <$> laptops)).
Proof.
  rewrite ranked_eq. destruct laptops as [|l ls].
  - intros [= <-]. simpl. by rewrite slice_to_nil.
  - case_decide; [done|]. by intros [= <-].
Qed.

Lemma scored_with_score usage_type budget laptops :
  scored <$> (with_score usage_type budget <$> laptops) = laptops.
Proof.
  rewrite <-list_fmap_compose. rewrite <-(list_fmap_id laptops) at 2.
  by apply list_fmap_ext.
Qed.

Lemma ranked_elem_of laptops usage_type budget limit out x :
  ranked laptops usage_type budget limit = Ok out →
  x ∈ out → scored x ∈ laptops.
Proof.
  intros -> % ranked_Ok Hx.
  apply (λ H, elem_of_sublist _ _ _ H (slice_to_sublist _ _)) in Hx.
  rewrite sorted_by_score_desc_elem_of in Hx.
  by apply list_elem_of_fmap in Hx as (l' & -> & Hl').
Qed.

Lemma ranked_sorted laptops usage_type budget limit out :
  ranked laptops usage_type budget limit = Ok out →
  StronglySorted by_score_desc out.
Proof.
  intros -> % ranked_Ok.
  pose proof (sorted_by_score_desc_sorted
                (with_score usage_type budget <$> laptops)) as Hs.
  destruct (slice_to_prefix limit
              (sorted_by_score_desc
                 (with_score usage_type budget <$> laptops)))
    as [rest Hrest].
  rewrite Hrest in Hs at 1. by apply StronglySorted_app_1_l in Hs.
Qed.

Lemma ranked_stable laptops usage_type budget limit out (k : Qc) :
  ranked laptops usage_type budget limit = Ok out →
  scored <$> filter (λ x, score x = k) out `sublist_of` laptops.
Proof.
  intros -> % ranked_Ok.
  trans (scored <$> filter (λ x, score x = k)
           (sorted_by_score_desc (with_score usage_type budget <$> laptops))).
  { apply fmap_sublist, filter_sublist_mono, slice_to_sublist. }
  rewrite sorted_by_score_desc_stable.
  rewrite <-(scored_with_score usage_type budget laptops) at 2.
  apply fmap_sublist, sublist_filter.
Qed.

Lemma ranked_length laptops usage_type budget limit out :
  (0 ≤ limit)%Z →
  ranked laptops usage_type budget limit = Ok out →
  (Z.of_nat (length out) ≤ limit)%Z.
Proof. intros Hl -> % ranked_Ok. by apply slice_to_length. Qed.

(** *** Erasing the display description *)

Lemma filter_fmap_invariant {A} (f : A → A) (P : A → Prop)
    `{!∀ x, Decision (P x)} (xs : list A) :
  (∀ x, P (f x) ↔ P x) → filter P (f <$> xs) = f <$> filter P xs.
Proof.
  intros HP. induction xs as [|x xs IH]; [done|].
  rewrite fmap_cons, !filter_cons, IH.
  pose proof (HP x). destruct (decide (P (f x))), (decide (P x)); tauto.
Qed.

Lemma filter_results_forget_display data budget usage_type
    brand_preference min_ram min_storage prefer_gpu :
  filter_results (forget_display <$> data) budget usage_type
    brand_preference min_ram min_storage prefer_gpu
  = forget_display <$> filter_results data budget usage_type
                         brand_preference min_ram min_storage prefer_gpu.
Proof.
  unfold filter_results.
  rewrite !(filter_fmap_invariant forget_display) by done.
  repeat case_match; by rewrite ?(filter_fmap_invariant forget_display).
Qed.

Lemma with_score_forget_display usage_type budget l :
  with_score usage_type budget (forget_display l)
  = forget_display_scored (with_score usage_type budget l).
Proof. done. Qed.

Lemma insert_by_score_forget_display x xs :
  insert_by_score (forget_display_scored x) (forget_display_scored <$> xs)
  = forget_display_scored <$> insert_by_score x xs.
Proof.
  induction xs as [|y xs IH]; [done|].
  rewrite fmap_cons. cbn [insert_by_score].
  change (score (forget_display_scored x)) with (score x).
  change (score (forget_display_scored y)) with (score y).
  case_decide; [|done]. by rewrite IH.
Qed.

Lemma sorted_by_score_desc_forget_display xs :
  sorted_by_score_desc (forget_display_scored <$> xs)
  = forget_display_scored <$> sorted_by_score_desc xs.
Proof.
  induction xs as [|x xs IH]; [done|].
  change (insert_by_score (forget_display_scored x)
            (sorted_by_score_desc (forget_display_scored <$> xs))
          = forget_display_scored <$>
              insert_by_score x (sorted_by_score_desc xs)).
  by rewrite IH, insert_by_score_forget_display.
Qed.

Lemma ranked_forget_display laptops usage_type budget limit :
  ranked (forget_display <$> laptops) usage_type budget limit
  = forget_display_result (ranked laptops usage_type budget limit).
Proof.
  rewrite !ranked_eq. destruct laptops as [|l ls]; [done|].
  rewrite fmap_cons. case_decide; [done|]. simpl. f_equal.
  rewrite <-slice_to_fmap. f_equal.
  change (sorted_by_score_desc
            (with_score usage_type budget <$>
               (forget_display <$> l :: ls))
          = forget_display_scored <$>
              sorted_by_score_desc (with_score usage_type budget <$> l :: ls)).
  rewrite <-sorted_by_score_desc_forget_display. f_equal.
  rewrite <-!list_fmap_compose. by apply list_fmap_ext.
Qed.

Lemma get_recommendations_forget_display data budget usage_type
    brand_preference min_ram min_storage prefer_gpu limit :
  outcome (get_recommendations (forget_display <$> data) budget usage_type
             brand_preference min_ram min_storage prefer_gpu limit)
  = forget_display_result
      (outcome (get_recommendations data budget usage_type
                  brand_preference min_ram min_storage prefer_gpu limit)).
Proof.
  destruct (filter_results data budget usage_type brand_preference
              min_ram min_storage prefer_gpu) as [|l ls] eqn:Hf.
  - destruct (usage_requirements !! usage_type) as [reqs|] eqn:Hreqs.
    + rewrite (get_recommendations_relaxed data _ _ _ _ _ _ _ reqs)
        by done.
      rewrite (get_recommendations_relaxed (forget_display <$> data)
                 _ _ _ _ _ _ _ reqs)
        by (by rewrite ?filter_results_forget_display, ?Hf).
      unfold outcome; simpl.
      by rewrite filter_results_forget_display, ranked_forget_display.
    + rewrite (get_recommendations_unknown data) by done.
      by rewrite (get_recommendations_unknown (forget_display <$> data))
        by (by rewrite ?filter_results_forget_display, ?Hf).
  - rewrite (get_recommendations_strict data) by (by rewrite Hf).
    rewrite (get_recommendations_strict (forget_display <$> data))
      by (by rewrite filter_results_forget_display, Hf).
    unfold outcome; simpl.
    by rewrite filter_results_forget_display, ranked_forget_display.
Qed.

Lemma weight_of_without_display (importance : gmap string Qc) key dflt :
  key ≠ "display" →
  weight_of (delete "display" importance) key dflt
  = weight_of importance key dflt.
Proof. intros Hk. unfold weight_of. by rewrite lookup_delete_ne. Qed.

Lemma laptop_score_without_display_weight reqs budget l :
  laptop_score (without_display_weight reqs) budget l
  = laptop_score reqs budget l.
Proof.
  unfold laptop_score, without_display_weight; simpl.
  by rewrite !weight_of_without_display.
Qed.

(** *** The claims about the engine *)

Lemma get_recommendations_returns data budget usage_type brand_preference
    min_ram min_storage prefer_gpu limit :
  budget ≠ 0%Qc → usage_type ∈ UsageType.members →
  ∃ out, outcome (get_recommendations data budget usage_type
                    brand_preference min_ram min_storage prefer_gpu limit)
         = Ok out.
Proof.
  intros Hb [reqs Hreqs]%usage_requirements_members.
  destruct (filter_results data budget usage_type brand_preference
              min_ram min_storage prefer_gpu) as [|l ls] eqn:Hf.
  - rewrite (get_recommendations_relaxed _ _ _ _ _ _ _ _ reqs) by done.
    by apply ranked_returns.
  - rewrite get_recommendations_strict by (by rewrite Hf).
    by apply ranked_returns.
Qed.

(** What reaches the scoring pass is a sublist of the catalog. *)
Lemma get_recommendations_ranked data budget usage_type brand_preference
    min_ram min_storage prefer_gpu limit out :
  outcome (get_recommendations data budget usage_type brand_preference
             min_ram min_storage prefer_gpu limit) = Ok out →
  ∃ laptops, laptops `sublist_of` data ∧
             ranked laptops usage_type budget limit = Ok out.
Proof.
  destruct (filter_results data budget usage_type brand_preference
              min_ram min_storage prefer_gpu) as [|l ls] eqn:Hf.
  - destruct (usage_requirements !! usage_type) as [reqs|] eqn:Hreqs.
    + rewrite (get_recommendations_relaxed _ _ _ _ _ _ _ _ reqs) by done.
      eauto using filter_results_sublist.
    + by rewrite get_recommendations_unknown.
  - rewrite get_recommendations_strict by (by rewrite Hf).
    eauto using filter_results_sublist.
Qed.



(** C3. For a positive budget, a usage type of the enumeration and a
    positive limit, [get_recommendations] returns a list that is sorted
    by non-increasing score, in which the products of any one score are
    in the order they have in the catalog, and that is no longer than
    the limit. *)
Theorem recommendations_sorted_stable_bounded data budget usage_type
    brand_preference min_ram min_storage prefer_gpu limit :
  (0 < budget)%Qc → usage_type ∈ UsageType.members → (0 < limit)%Z →
  ∃ out,
    outcome (get_recommendations data budget usage_type brand_preference
               min_ram min_storage prefer_gpu limit) = Ok out ∧
    StronglySorted by_score_desc out ∧
    (∀ k : Qc,
       scored <$> filter (λ x, score x = k) out `sublist_of` data) ∧
    (Z.of_nat (length out) ≤ limit)%Z.
Proof.
  intros Hb Hu Hl.
  destruct (get_recommendations_returns data budget usage_type
              brand_preference min_ram min_storage prefer_gpu limit)
    as [out Hout]; [|done|].
  { intros ->. by apply (irreflexivity Qclt 0%Qc). }
  exists out. split; [done|].
  apply get_recommendations_ranked in Hout as (laptops & Hsub & Hout).
  split; [by eapply ranked_sorted|]. split.
  - intros k. etrans; [by eapply ranked_stable|done].
  - eapply ranked_length; [lia|done].
Qed.

(** C5. On the two-laptop catalog, an unknown usage type is served with
    the entry of [GENERAL] while the strict pass finds something (budget
    1300), but raises [KeyError] as soon as the strict pass is empty
    (budget 1000): the relaxed pass indexes the table without the
    fallback. *)
Theorem unknown_usage_type_raises_in_relaxed_pass :
  (∃ out, outcome (get_recommendations [dell; apple] (Qc_of_Z 1300)
                     "tablet" None None None false 5) = Ok out ∧
          scored <$> out = [dell; apple]) ∧
  get_recommendations [dell; apple] (Qc_of_Z 1000) "tablet" None None None
    false 5
  = ([strict_call (Qc_of_Z 1000) "tablet" None None None false],
     Raise (KeyError "tablet")).
Proof.
  split.
  - eexists. split; [vm_compute; reflexivity|reflexivity].
  - by apply get_recommendations_unknown.
Qed.

(** C8. Two catalogs that differ only in display descriptions give the
    same outcome up to those descriptions: the same exception, or lists
    with the same scores and the same laptops in the same order.
    Moreover the weight that an entry of the table gives to the display
    does not enter any score. *)
Theorem score_ignores_display data1 data2 budget usage_type
    brand_preference min_ram min_storage prefer_gpu limit :
  forget_display <$> data1 = forget_display <$> data2 →
  forget_display_result
    (outcome (get_recommendations data1 budget usage_type brand_preference
                min_ram min_storage prefer_gpu limit))
  = forget_display_result
      (outcome (get_recommendations data2 budget usage_type
                  brand_preference min_ram min_storage prefer_gpu limit))
  ∧ (∀ l, laptop_score
            (without_display_weight (requirements_or_general usage_type))
            budget l
          = laptop_score (requirements_or_general usage_type) budget l)
  ∧ req_importance gaming_requirements !! "display" = Some (d 1 10)
  ∧ req_importance creative_requirements !! "display" = Some (d 4 10).
Proof.
  intros Hdata. split; [|split; [|done]].
  - by rewrite <-!get_recommendations_forget_display, Hdata.
  - intros l. apply laptop_score_without_display_weight.
Qed.

(** *** The claims at concrete inputs *)



Lemma recommendations_sorted_stable_bounded_witness :
  ((0 < Qc_of_Z 1300)%Qc ∧ "general" ∈ UsageType.members ∧ (0 < 5)%Z) ∧
  ∃ out,
    outcome (get_recommendations [dell; apple] (Qc_of_Z 1300) "general"
               None None None false 5) = Ok out ∧
    StronglySorted by_score_desc out ∧
    (∀ k : Qc,
       scored <$> filter (λ x, score x = k) out
       `sublist_of` [dell; apple]) ∧
    (Z.of_nat (length out) ≤ 5)%Z.
Proof.
  assert ("general" ∈ UsageType.members) as Hu
    by (apply (bool_decide_unpack _); vm_compute; exact I).
  split; [split; [reflexivity|split; [exact Hu|reflexivity]]|].
  apply (recommendations_sorted_stable_bounded [dell; apple]
           (Qc_of_Z 1300) "general" None None None false 5);
    [reflexivity|exact Hu|reflexivity].
Defined.

Lemma score_ignores_display_witness :
  forget_display <$> [dell; apple]
  = forget_display <$>
      [ {| laptop_id := "1"; brand := "Dell"; model := "XPS";
           price := Qc_of_Z 1200; processor := "i7"; ram := 16;
           storage := 512; gpu := None; display := Some "15.6 OLED";
           battery_life := None; weight := None; os := None |};
        apple ] ∧
  forget_display_result
    (outcome (get_recommendations [dell; apple] (Qc_of_Z 1300) "creative"
                None (Some 8%Z) (Some 256%Z) false 5))
  = forget_display_result
      (outcome
         (get_recommendations
            [ {| laptop_id := "1"; brand := "Dell"; model := "XPS";
                 price := Qc_of_Z 1200; processor := "i7"; ram := 16;
                 storage := 512; gpu := None; display := Some "15.6 OLED";
                 battery_life := None; weight := None; os := None |};
              apple ]
            (Qc_of_Z 1300) "creative" None (Some 8%Z) (Some 256%Z) false
            5)).
Proof.
  split; [reflexivity|].
  apply (score_ignores_display [dell; apple] _ (Qc_of_Z 1300) "creative"
           None (Some 8%Z) (Some 256%Z) false 5).
  reflexivity.
Defined.

End engine.

(** ** The chatbot *)

Section chatbot.
Import Py ChatBot ChatSpec.

Implicit Types (self : chatbot) (env : environment) (request : ChatRequest).
Implicit Types (p : preferences).

Lemma _get_recommendations_eq self p :
  _get_recommendations self p =
  let r := RecommendationEngine.get_recommendations (laptop_data self)
             (default (Qc_of_Z 1000) (budget p))
             (default UsageType.GENERAL (usage_type p)) (brand_preference p)
             (min_ram p) (min_storage p) (default false (prefer_gpu p)) 5 in
  (EngineCall (default (Qc_of_Z 1000) (budget p))
     (default UsageType.GENERAL (usage_type p)) (brand_preference p)
     (min_ram p) (min_storage p) (default false (prefer_gpu p)) :: trace r,
   outcome r).
Proof.
  unfold _get_recommendations. simpl.
  by destruct (RecommendationEngine.get_recommendations _ _ _ _ _ _ _ _).
Qed.


Lemma _has_sufficient_preferences_spec p :
  _has_sufficient_preferences p = true ↔
  is_Some (budget p) ∧ is_Some (usage_type p).
Proof.
  unfold _has_sufficient_preferences.
  by rewrite andb_true_iff, !bool_decide_eq_true.
Qed.

(** The three branches of [process_message]. *)
Lemma process_message_greeting self env request :
  greeting_turn self env request = true →
  (process_message self env request).2
  = ([], Ok {| resp_message := Plain greeting_text;
               resp_recommendations := None;
               resp_conversation_id := turn_conversation_id env request;
               resp_extracted_preferences :=
                 merged_preferences self env request |}).
Proof.
  unfold greeting_turn, merged_preferences, turn_conversation,
    turn_conversation_id, turn_message, process_message.
  by intros ->.
Qed.



Lemma process_message_preferences self env request :
  conv_preferences <$>
    conversations (process_message self env request).1
      !! turn_conversation_id env request
  = Some (merged_preferences self env request).
Proof.
  unfold merged_preferences, turn_conversation, turn_conversation_id,
    turn_message, process_message.
  repeat case_match; simpl; by rewrite lookup_insert_eq.
Qed.

Lemma update_keeps_keys old new : keeps_keys old (update old new).
Proof.
  unfold keeps_keys, update, update_key; simpl.
  repeat split; intros [v Hv]; rewrite Hv; by case_match.
Qed.

Lemma update_has_items old new : has_items new (update old new).
Proof.
  unfold has_items, update, update_key; simpl.
  repeat split; by intros v ->.
Qed.

Lemma update_other_items old new : other_items_from old new (update old new).
Proof.
  unfold other_items_from, update, update_key; simpl.
  repeat split; by intros ->.
Qed.

(** *** The claims about the coordinator *)


(** C9. Whatever branch handles the turn, also the greeting branch and the
    one in which the engine raises, the conversation stored after
    [process_message] holds the old preference record updated with
    everything extracted from the utterance: every key set before is still
    set, every extracted item is there, and the keys not extracted keep
    their old values. *)
Theorem preferences_merged_before_branching self env request :
  ∃ conv,
    conversations (process_message self env request).1
      !! turn_conversation_id env request = Some conv ∧
    conv_preferences conv
    = update (conv_preferences (turn_conversation self env request))
        (_extract_preferences (turn_message request)) ∧
    keeps_keys (conv_preferences (turn_conversation self env request))
      (conv_preferences conv) ∧
    has_items (_extract_preferences (turn_message request))
      (conv_preferences conv) ∧
    other_items_from (conv_preferences (turn_conversation self env request))
      (_extract_preferences (turn_message request)) (conv_preferences conv).
Proof.
  pose proof (process_message_preferences self env request) as H.
  destruct (conversations _ !! _) as [conv|]; [|done].
  injection H as H. exists conv. split; [done|]. rewrite H.
  unfold merged_preferences.
  eauto using update_keeps_keys, update_has_items, update_other_items.
Qed.

(** *** The claims at concrete inputs *)

(** A greeting turn that also names a budget and a usage: the reply is the
    greeting, yet both are stored, and the next turn reaches the engine. *)
Example greeting_turn_keeps_extracted_fields :
  let turn1 :=
    process_message fresh_bot sample_env
      (say "hello, I need a gaming laptop under $1500") in
  let turn2 := process_message turn1.1 sample_env (say "ok") in
  (∃ response, outcome turn1.2 = Ok response ∧
               resp_message response = Plain greeting_text) ∧
  trace turn1.2 = [] ∧
  budget (merged_preferences turn1.1 sample_env (say "ok"))
  = Some (Qc_of_Z 1500) ∧
  usage_type (merged_preferences turn1.1 sample_env (say "ok"))
  = Some UsageType.GAMING ∧
  engine_invoked (trace turn2.2).
Proof.
  split; [eexists; split; [vm_compute; reflexivity|reflexivity]|].
  repeat split; try (vm_compute; reflexivity).
  eexists. split; [vm_compute; apply list_elem_of_here|done].
Qed.


End chatbot.

(** ** Regular expressions *)

Section regex.
Import Py Re ReSpec.

Implicit Types (r a b : regex) (st : state) (w s : list ascii).

Lemma run_Seq a b st st' :
  st' ∈ run (Seq a b) st ↔ ∃ st1, st1 ∈ run a st ∧ st' ∈ run b st1.
Proof.
  simpl. rewrite list_elem_of_bind.
  split; intros (st1 & H1 & H2); by exists st1.
Qed.

Lemma run_Alt a b st st' :
  st' ∈ run (Alt a b) st ↔ st' ∈ run a st ∨ st' ∈ run b st.
Proof. simpl. apply elem_of_app. Qed.

Lemma run_Eps st st' : st' ∈ run Eps st ↔ st' = st.
Proof. simpl. apply list_elem_of_singleton. Qed.

Lemma run_Opt a st st' :
  st' ∈ run (Opt a) st ↔ st' ∈ run a st ∨ st' = st.
Proof. unfold Opt. by rewrite run_Alt, run_Eps. Qed.

Lemma run_Cls k st st' :
  st' ∈ run (Cls k) st ↔
  ∃ x t, rest st = x :: t ∧ in_cls k x = true ∧ st' = advance x t st.
Proof.
  simpl. split.
  - destruct (rest st) as [|x t]; [by intros ?%elem_of_nil|].
    destruct (in_cls k x) eqn:Hk; [|by intros ?%elem_of_nil].
    intros ->%list_elem_of_singleton. by exists x, t.
  - intros (x & t & Hst & Hk & ->). rewrite Hst, Hk.
    by apply list_elem_of_singleton.
Qed.

Lemma run_Lit c st st' :
  st' ∈ run (Lit c) st ↔
  ∃ x t, rest st = x :: t ∧ same_letter x c = true ∧ st' = advance x t st.
Proof.
  simpl. split.
  - destruct (rest st) as [|x t]; [by intros ?%elem_of_nil|].
    destruct (same_letter x c) eqn:Hx; [|by intros ?%elem_of_nil].
    intros ->%list_elem_of_singleton. by exists x, t.
  - intros (x & t & Hst & Hx & ->). rewrite Hst, Hx.
    by apply list_elem_of_singleton.
Qed.

Lemma run_Group a st st' :
  st' ∈ run (Group a) st ↔
  ∃ st1, st1 ∈ run a st ∧
         st' = {| prev := prev st1; rest := rest st1;
                  group1 := Some (consumed st st1) |}.
Proof.
  simpl. rewrite list_elem_of_fmap.
  split; intros (st1 & H1 & H2); by exists st1.
Qed.

(** What holds at the start of a loop and is kept by an iteration holds
    at its end. *)
Lemma star_loop_invariant (P : state → Prop) (step : state → list state)
    fuel st st' :
  (∀ st1 st2, P st1 → st2 ∈ step st1 → P st2) →
  P st → st' ∈ star_loop step fuel st → P st'.
Proof.
  intros Hstep. revert st.
  induction fuel as [|fuel IH]; intros st HP; simpl.
  - by intros ->%list_elem_of_singleton.
  - rewrite elem_of_app, list_elem_of_bind, list_elem_of_singleton.
    intros [(st1 & Hst' & [_ Hst1]%list_elem_of_filter)| ->]; [|done].
    eapply IH; [|done]. by eapply Hstep.
Qed.

(** A match consumes a prefix of the remaining text, made of characters
    that its atoms accept. *)
Lemma run_consumes r st st' :
  st' ∈ run r st →
  ∃ w, rest st = w ++ rest st' ∧ Forall (λ x, may_consume r x = true) w.
Proof.
  revert st st'. induction r as [| |c|k|a IHa b IHb|a IHa b IHb|a IHa|a IHa| | |];
    intros st st'.
  - by intros ?%elem_of_nil.
  - intros ->%run_Eps. by exists [].
  - intros (x & t & Hst & Hx & ->)%run_Lit. exists [x]. split; [done|].
    by constructor.
  - intros (x & t & Hst & Hx & ->)%run_Cls. exists [x]. split; [done|].
    by constructor.
  - intros (st1 & (w1 & Hw1 & HF1)%IHa & (w2 & Hw2 & HF2)%IHb)%run_Seq.
    exists (w1 ++ w2). split; [by rewrite Hw1, Hw2, app_assoc|].
    apply Forall_app. split; (eapply Forall_impl; [done|]); simpl;
      intros x ->; by rewrite ?orb_true_r.
  - intros [(w & Hw & HF)%IHa|(w & Hw & HF)%IHb]%run_Alt; exists w;
      (split; [done|]); (eapply Forall_impl; [done|]); simpl;
      intros x ->; by rewrite ?orb_true_r.
  - simpl.
    apply (star_loop_invariant
             (λ st1, ∃ w, rest st = w ++ rest st1 ∧
                          Forall (λ x, may_consume a x = true) w)).
    + intros st1 st2 (w1 & Hw1 & HF1) (w2 & Hw2 & HF2)%IHa.
      exists (w1 ++ w2). split; [by rewrite Hw1, Hw2, app_assoc|].
      by apply Forall_app.
    + by exists [].
  - intros (st1 & (w & Hw & HF)%IHa & ->)%run_Group. by exists w.
  - simpl. case_match; [intros ->%list_elem_of_singleton; by exists []|].
    by intros ?%elem_of_nil.
  - simpl. case_match; [by intros ?%elem_of_nil|].
    intros ->%list_elem_of_singleton; by exists [].
  - simpl. repeat case_match; try (by intros ?%elem_of_nil);
      intros ->%list_elem_of_singleton; by exists [].
Qed.

Lemma consumed_app st st' w : rest st = w ++ rest st' → consumed st st' = w.
Proof.
  intros Hw. unfold consumed. rewrite Hw, length_app.
  replace (length w + length (rest st') - length (rest st'))
    with (length w) by lia.
  by rewrite take_app_length.
Qed.

(** A pattern without a group leaves the captured text alone. *)
Lemma run_group_free r st st' :
  group_free r = true → st' ∈ run r st → group1 st' = group1 st.
Proof.
  revert st st'. induction r as [| |c|k|a IHa b IHb|a IHa b IHb|a IHa|a IHa| | |];
    intros st st' Hr; simpl in Hr.
  - by intros ?%elem_of_nil.
  - by intros ->%run_Eps.
  - by intros (x & t & Hst & Hx & ->)%run_Lit.
  - by intros (x & t & Hst & Hx & ->)%run_Cls.
  - apply andb_true_iff in Hr as [Ha Hb].
    intros (st1 & H1 & H2)%run_Seq.
    by rewrite (IHb _ _ Hb H2), (IHa _ _ Ha H1).
  - apply andb_true_iff in Hr as [Ha Hb].
    intros [H|H]%run_Alt; eauto.
  - simpl.
    apply (star_loop_invariant (λ st1, group1 st1 = group1 st)); [|done].
    intros st1 st2 H1 H2. by rewrite (IHa _ _ Hr H2).
  - done.
  - simpl. case_match; [by intros ->%list_elem_of_singleton|].
    by intros ?%elem_of_nil.
  - simpl. case_match; [by intros ?%elem_of_nil|].
    by intros ->%list_elem_of_singleton.
  - simpl. repeat case_match; try (by intros ?%elem_of_nil);
      by intros ->%list_elem_of_singleton.
Qed.

(** A match that consumes something starts with a character that the
    pattern can start with. *)
Lemma run_first r st st' :
  st' ∈ run r st →
  (rest st' = rest st ∧ nullable r = true) ∨
  (∃ x t, rest st = x :: t ∧ first r x = true).
Proof.
  revert st st'.
  induction r as [| |c|k|a IHa b IHb|a IHa b IHb|a IHa|a IHa| | |];
    intros st st'.
  - by intros ?%elem_of_nil.
  - intros ->%run_Eps. by left.
  - intros (x & t & Hst & Hx & ->)%run_Lit. right. by exists x, t.
  - intros (x & t & Hst & Hx & ->)%run_Cls. right. by exists x, t.
  - intros (st1 & [[H1 Ha]|(x & t & Hst & Hx)]%IHa & H2)%run_Seq.
    + apply IHb in H2 as [[H2 Hb]|(x & t & Hst & Hx)].
      * left. simpl. by rewrite H2, H1, Ha, Hb.
      * right. exists x, t. simpl. rewrite <-H1, Ha, Hx.
        split; [done|]. apply orb_true_r.
    + right. exists x, t. simpl. by rewrite Hx.
  - intros [H|H]%run_Alt.
    + apply IHa in H as [[H Ha]|(x & t & Hst & Hx)].
      * left. simpl. by rewrite Ha.
      * right. exists x, t. simpl. by rewrite Hx.
    + apply IHb in H as [[H Hb]|(x & t & Hst & Hx)].
      * left. simpl. rewrite Hb. split; [done|]. apply orb_true_r.
      * right. exists x, t. simpl. rewrite Hx. split; [done|].
        apply orb_true_r.
  - simpl. intros H.
    cut (rest st' = rest st ∨ ∃ x t, rest st = x :: t ∧ first a x = true).
    { intros [?|?]; [by left|by right]. }
    revert H.
    apply (star_loop_invariant
             (λ st1, rest st1 = rest st ∨
                     ∃ x t, rest st = x :: t ∧ first a x = true));
      [|by left].
    intros st1 st2 [H1|H1] H2; [|by right].
    apply IHa in H2 as [[H2 _]|(x & t & Hst & Hx)].
    + left. by rewrite H2.
    + right. exists x, t. by rewrite <-H1.
  - intros (st1 & [[H1 Ha]|(x & t & Hst & Hx)]%IHa & ->)%run_Group.
    + by left.
    + right. by exists x, t.
  - simpl. case_match; [intros ->%list_elem_of_singleton; by left|].
    by intros ?%elem_of_nil.
  - simpl. case_match; [by intros ?%elem_of_nil|].
    intros ->%list_elem_of_singleton; by left.
  - simpl. repeat case_match; try (by intros ?%elem_of_nil);
      intros ->%list_elem_of_singleton; by left.
Qed.

Lemma follows_first unit t :
  nullable unit = false → follows unit t →
  ∃ x t', t = x :: t' ∧ first unit x = true.
Proof.
  intros Hn (st & st' & <- & [[_ H]|H]%run_first); [congruence|done].
Qed.

(** *** [re.search] *)

(** A match reported by [search_from] is a match of the pattern at some
    position of the subject. *)
Lemma search_from_Some r offset before s m :
  search_from r offset before s = Some m →
  ∃ skipped s' p st',
    s = skipped ++ s' ∧ start m = offset + length skipped ∧
    st' ∈ run r (State p s' None) ∧
    group0 m = consumed (State p s' None) st' ∧ group_1 m = group1 st'.
Proof.
  revert offset before. induction s as [|c s IH]; intros offset before; simpl.
  - destruct (head _) as [st'|] eqn:Hh; [|done]. intros [= <-].
    exists [], [], before, st'. simpl.
    repeat split; [lia|by eapply head_Some_elem_of].
  - destruct (head _) as [st'|] eqn:Hh.
    + intros [= <-]. exists [], (c :: s), before, st'. simpl.
      repeat split; [lia|by eapply head_Some_elem_of].
    + intros (skipped & s' & p & st' & -> & Hstart & ?)%IH.
      exists (c :: skipped), s', p, st'. simpl. split; [done|].
      split; [lia|done].
Qed.

Lemma search_Some r message m :
  search r message = Some m →
  ∃ skipped s' p st',
    list_ascii_of_string message = skipped ++ s' ∧
    start m = length skipped ∧
    st' ∈ run r (State p s' None) ∧
    group0 m = consumed (State p s' None) st' ∧ group_1 m = group1 st'.
Proof.
  intros (skipped & s' & p & st' & ? & ? & ?)%search_from_Some.
  by exists skipped, s', p, st'.
Qed.

(** *** Numbers *)

Lemma is_digit_value c :
  is_digit c = true → (0 ≤ Z.of_N (N_of_ascii c) - 48 ≤ 9)%Z.
Proof.
  unfold is_digit. rewrite andb_true_iff, !N.leb_le. lia.
Qed.

Lemma digits_value_Some acc w :
  Forall (λ x, is_digit x = true) w → (0 ≤ acc)%Z →
  ∃ z, ChatBot.digits_value acc w = Some z ∧
       (acc * 10 ^ Z.of_nat (length w) ≤ z)%Z.
Proof.
  intros Hw. revert acc. induction Hw as [|c w Hc Hw IH]; intros acc Hacc.
  - exists acc. simpl. split; [done|lia].
  - simpl. rewrite Hc. apply is_digit_value in Hc.
    destruct (IH (10 * acc + (Z.of_N (N_of_ascii c) - 48))%Z) as (z & Hz & Hle);
      [lia|].
    exists z. split; [done|].
    replace (Z.of_nat (S (length w))) with (Z.succ (Z.of_nat (length w)))
      by lia.
    rewrite Z.pow_succ_r by lia.
    assert (0 < 10 ^ Z.of_nat (length w))%Z by (apply Z.pow_pos_nonneg; lia).
    nia.
Qed.

Lemma int_digits w :
  w ≠ [] → Forall (λ x, is_digit x = true) w →
  ∃ z, ChatBot.int w = Some z ∧ (0 ≤ z)%Z.
Proof.
  intros Hne Hw. destruct (digits_value_Some 0 w Hw) as (z & Hz & Hle); [lia|].
  exists z. split; [by destruct w|lia].
Qed.

(** The group of a number followed by a unit captures a number. *)
Lemma run_number_then unit :
  group_free unit = true →
  captures_number_then unit (Seq (Group (Plus (Cls Digit))) unit).
Proof.
  intros Hunit st st'
    (stg & (st1 & H1 & ->)%run_Group & Hst')%run_Seq.
  pose proof (run_consumes _ _ _ H1) as (w & Hw & HF).
  exists w, (rest st1). rewrite (run_group_free _ _ _ Hunit Hst'). simpl.
  rewrite (consumed_app _ _ _ Hw).
  split; [done|]. split; [|split; [|split; [done|]]].
  - apply run_Seq in H1 as (st2 & (x & t & Hx & _ & ->)%run_Cls & H2).
    apply run_consumes in H2 as (w2 & Hw2 & _). simpl in Hw2.
    intros ->. rewrite Hx, Hw2 in Hw. apply (f_equal length) in Hw.
    simpl in Hw. rewrite length_app in Hw. lia.
  - eapply Forall_impl; [done|]. simpl. intros x. by rewrite orb_diag.
  - eexists _, st'. split; [|done]. done.
Qed.

End regex.


(** ** Preference extraction *)

Section extraction.
Import Py Re ReSpec ChatBot.

Implicit Types (message : string) (w s : list ascii) (m : re_match).

(** *** Characters *)



Lemma same_letter_comma x : same_letter x "," = Ascii.eqb x ",".
Proof. by destruct x as [[] [] [] [] [] [] [] []]. Qed.

Lemma same_letter_dollar x : same_letter x "$" = Ascii.eqb x "$".
Proof. by destruct x as [[] [] [] [] [] [] [] []]. Qed.

Lemma is_digit_not_comma x : is_digit x = true → x ≠ ","%char.
Proof. by intros Hx ->. Qed.

Lemma is_digit_not_dollar x : is_digit x = true → x ≠ "$"%char.
Proof. by intros Hx ->. Qed.

Lemma is_digit_not_zero x :
  is_digit x = true → x ≠ "0"%char → (1 ≤ Z.of_N (N_of_ascii x) - 48)%Z.
Proof.
  intros Hx Hne. pose proof (is_digit_value x Hx).
  destruct (decide (N_of_ascii x = 48%N)) as [H48|]; [|lia].
  destruct Hne. by rewrite <-(ascii_N_embedding x), H48.
Qed.

(** *** The test for the unit TB *)



(** *** The claim about the storage *)


(** *** The amount captured by the budget patterns *)

Lemma has_three_digits_app pre s :
  three_digits_at s = true → has_three_digits (pre ++ s) = true.
Proof.
  intros Hs. induction pre as [|c pre IH].
  - destruct s as [|x s]; [done|].
    change (three_digits_at (x :: s) || has_three_digits s = true).
    by rewrite Hs.
  - change (three_digits_at (c :: pre ++ s) || has_three_digits (pre ++ s)
            = true).
    rewrite IH. apply orb_true_r.
Qed.

Lemma amount_captures : captures_amount amount.
Proof.
  intros st st' (st1 & H1 & (st2 & H2 & ->)%run_Group)%run_Seq.
  apply run_consumes in H1 as (u & Hu & _).
  apply run_Seq in H2 as (st3 & H3 & H4).
  change (Rep 3 2 (Cls Digit))
    with (Seq (Cls Digit) (Seq (Cls Digit) (Seq (Cls Digit)
            (UpTo 2 (Cls Digit))))) in H3.
  apply run_Seq in H3 as (sa & (a & ta & Ha & Hda & ->)%run_Cls & H3).
  apply run_Seq in H3 as (sb & (b & tb & Hb & Hdb & ->)%run_Cls & H3).
  apply run_Seq in H3 as (sc & (c & tc & Hc & Hdc & ->)%run_Cls & H3).
  apply run_consumes in H3 as (w1 & Hw1 & HF1).
  apply run_consumes in H4 as (w2 & Hw2 & HF2).
  simpl in Hb, Hc, Hw1.
  assert (rest st1 = (a :: b :: c :: w1 ++ w2) ++ rest st2) as Hw.
  { rewrite Ha, Hb, Hc, Hw1, Hw2. simpl. by rewrite <-app_assoc. }
  exists (a :: b :: c :: w1 ++ w2), u, (rest st2). simpl.
  rewrite (consumed_app _ _ _ Hw). split; [done|]. split.
  - exists a, b, c, (w1 ++ w2). repeat split; try done.
    apply Forall_app. split; (eapply Forall_impl; [done|]); simpl; intros x.
    + destruct (is_digit x); [by left|done].
    + rewrite same_letter_comma.
      destruct (Ascii.eqb_spec x ","); [by right|].
      destruct (is_digit x); [by left|done].
  - by rewrite Hu, Hw.
Qed.

Lemma captures_amount_after a r :
  captures_amount r → captures_amount (Seq a r).
Proof.
  intros Hr st st' (st1 & (u1 & Hu1 & _)%run_consumes & H2)%run_Seq.
  apply Hr in H2 as (w & u & v & Hg & Hw & Hst1).
  exists w, (u1 ++ u), v. by rewrite Hu1, Hst1, <-app_assoc.
Qed.

Lemma captures_amount_before r b :
  captures_amount r → group_free b = true → captures_amount (Seq r b).
Proof.
  intros Hr Hb st st' (st1 & H1 & H2)%run_Seq.
  apply Hr in H1 as (w & u & v & Hg & Hw & Hst).
  exists w, u, v. by rewrite (run_group_free _ _ _ Hb H2).
Qed.

Lemma budget_patterns_capture r :
  r ∈ budget_patterns → captures_amount r.
Proof.
  unfold budget_patterns, pattern, Seqs. cbn [foldr].
  rewrite !elem_of_cons, elem_of_nil.
  intros [->|[->|[->|[->|[->|[]]]]]];
    repeat first
      [ by apply captures_amount_before; [apply amount_captures|]
      | apply captures_amount_after ].
Qed.

Lemma extract_budget_Some patterns message v :
  extract_budget patterns message = Some v →
  ∃ r m, r ∈ patterns ∧ search r message = Some m ∧
         float (remove_commas (group m)) = Some v.
Proof.
  induction patterns as [|r patterns IH]; [done|]. simpl.
  destruct (search r message) as [m|] eqn:Hm.
  - destruct (float (remove_commas (group m))) as [v'|] eqn:Hv.
    + intros [= <-]. exists r, m. split; [apply list_elem_of_here|done].
    + intros (r' & m' & ? & ?)%IH. exists r', m'.
      split; [by apply list_elem_of_further|done].
  - intros (r' & m' & ? & ?)%IH. exists r', m'.
    split; [by apply list_elem_of_further|done].
Qed.

Lemma remove_commas_digits t :
  Forall (λ x, is_digit x = true ∨ x = ","%char) t →
  Forall (λ x, is_digit x = true) (remove_commas t).
Proof.
  intros Ht. apply Forall_forall. intros x [Hx Hin]%list_elem_of_filter.
  by destruct (proj1 (Forall_forall _ _) Ht x Hin).
Qed.

Lemma remove_commas_amount w :
  amount_text w →
  ∃ a ds, head w = Some a ∧ remove_commas w = a :: ds ∧
          is_digit a = true ∧ 2 ≤ length ds ∧
          Forall (λ x, is_digit x = true) ds.
Proof.
  intros (a & b & c & t & -> & Ha & Hb & Hc & Ht).
  exists a, (b :: c :: remove_commas t). unfold remove_commas.
  rewrite !filter_cons_True by by apply is_digit_not_comma.
  repeat split; try done; [simpl; lia|].
  repeat constructor; try done. by apply remove_commas_digits.
Qed.

(** The number read from an amount. *)
Lemma float_amount w v :
  amount_text w → float (remove_commas w) = Some v →
  ∃ z, int (remove_commas w) = Some z ∧ v = Qc_of_Z z ∧ (0 ≤ z)%Z ∧
       (head w ≠ Some "0"%char → (100 ≤ z)%Z).
Proof.
  intros (a & ds & Hh & Hw & Ha & Hlen & Hds)%remove_commas_amount.
  unfold float. rewrite Hw, Hh.
  destruct (int (a :: ds)) as [z|] eqn:Hz; [|done].
  intros [= <-]. exists z. split; [done|]. split; [done|].
  simpl in Hz. rewrite Ha in Hz. pose proof (is_digit_value a Ha).
  destruct (digits_value_Some (10 * 0 + (Z.of_N (N_of_ascii a) - 48)) ds Hds)
    as (z' & Hz' & Hle); [lia|].
  rewrite Hz' in Hz. injection Hz as <-.
  assert (10 ^ 2 ≤ 10 ^ Z.of_nat (length ds))%Z
    by (apply Z.pow_le_mono_r; lia).
  split; [nia|]. intros Hne.
  assert (1 ≤ Z.of_N (N_of_ascii a) - 48)%Z
    by (apply is_digit_not_zero; [done|congruence]).
  nia.
Qed.

(** *** The claim about the least budget *)




(** An amount of two digits does not set the budget. *)
Example two_digit_amount_sets_no_budget :
  budget (_extract_preferences "$99") = None ∧
  budget (_extract_preferences "$099") = Some (Qc_of_Z 99) ∧
  budget (_extract_preferences "$100") = Some (Qc_of_Z 100).
Proof. repeat split; vm_compute; reflexivity. Qed.

(** *** Decimal numerals *)

Lemma digit_char_spec n :
  (0 ≤ n ≤ 9)%Z →
  is_digit (digit_char n) = true ∧
  (Z.of_N (N_of_ascii (digit_char n)) - 48 = n)%Z.
Proof.
  intros Hn.
  assert (n = 0 ∨ n = 1 ∨ n = 2 ∨ n = 3 ∨ n = 4 ∨ n = 5 ∨ n = 6 ∨ n = 7
          ∨ n = 8 ∨ n = 9)%Z as Hcases by lia.
  destruct Hcases as [->|[->|[->|[->|[->|[->|[->|[->|[->| ->]]]]]]]]];
    by vm_compute.
Qed.

Lemma digits_value_digit_char acc n s :
  (0 ≤ n ≤ 9)%Z →
  digits_value acc (digit_char n :: s) = digits_value (10 * acc + n) s.
Proof.
  intros [Hd Hv]%digit_char_spec.
  cbn [digits_value]. by rewrite Hd, Hv.
Qed.

(** The numeral of a number from 100 to 99999: three to five digits that
    spell the number. *)
Lemma decimal_spec n :
  (100 ≤ n ≤ 99999)%Z →
  ∃ a b c t,
    decimal n = a :: b :: c :: t ∧
    is_digit a = true ∧ is_digit b = true ∧ is_digit c = true ∧
    Forall (λ x, is_digit x = true) t ∧ length t ≤ 2 ∧
    int (decimal n) = Some n.
Proof.
  intros Hn. unfold decimal, int. cbn [decimal_digits].
  assert (∀ k, 0 ≤ k mod 10 ≤ 9)%Z as Hmod
    by (intros k; pose proof (Z.mod_pos_bound k 10); lia).
  repeat match goal with
         | |- context [(?x <? 10)%Z] => destruct (Z.ltb_spec x 10)
         end;
    try (exfalso; Z.to_euclidean_division_equations; lia);
    cbn [app];
    (do 4 eexists; split; [reflexivity|]);
    (repeat split;
       [apply digit_char_spec, Hmod ..
       | repeat constructor; apply digit_char_spec, Hmod
       | simpl; lia
       | rewrite !digits_value_digit_char by apply Hmod;
         cbn [digits_value]; f_equal;
         Z.to_euclidean_division_equations; lia ]).
Qed.

(** *** Where the first budget pattern matches *)

Lemma head_bind {A B} (f : A → list B) (l : list A) x y :
  head l = Some x → head (f x) = Some y → head (l ≫= f) = Some y.
Proof.
  destruct l as [|x' l]; [done|]. intros [= ->] Hy. simpl.
  destruct (f x); [done|]. by injection Hy as ->.
Qed.

Lemma head_run_Seq a b st st1 st2 :
  head (run a st) = Some st1 → head (run b st1) = Some st2 →
  head (run (Seq a b) st) = Some st2.
Proof. apply head_bind. Qed.

Lemma head_run_Opt_miss a st : run a st = [] → run (Opt a) st = [st].
Proof. intros Ha. simpl. by rewrite Ha. Qed.

Lemma head_run_Opt_hit a st st1 :
  head (run a st) = Some st1 → head (run (Opt a) st) = Some st1.
Proof. simpl. by destruct (run a st). Qed.

Lemma run_digit_hit p x t g :
  is_digit x = true →
  run (Cls Digit) (State p (x :: t) g) = [State (Some x) t g].
Proof. intros Hx. simpl. by rewrite Hx. Qed.

Lemma run_digit_miss p s g :
  (∀ x, head s = Some x → is_digit x = false) →
  run (Cls Digit) (State p s g) = [].
Proof.
  intros Hs. destruct s as [|x t]; [done|]. simpl. by rewrite (Hs x).
Qed.

(** A match of the amount needs three digits, after a dollar sign or not. *)
Lemma amount_needs_digits st st' :
  st' ∈ run amount st → amount_at (rest st) = true.
Proof.
  intros (st1 & H1 & (st2 & H2 & ->)%run_Group)%run_Seq.
  assert (three_digits_at (rest st1) = true) as Hd.
  { apply run_Seq in H2 as (st3 & H3 & _).
    change (Rep 3 2 (Cls Digit))
      with (Seq (Cls Digit) (Seq (Cls Digit) (Seq (Cls Digit)
              (UpTo 2 (Cls Digit))))) in H3.
    apply run_Seq in H3 as (sa & (a & ta & Ha & Hda & ->)%run_Cls & H3).
    apply run_Seq in H3 as (sb & (b & tb & Hb & Hdb & ->)%run_Cls & H3).
    apply run_Seq in H3 as (sc & (c & tc & Hc & Hdc & ->)%run_Cls & _).
    simpl in Hb, Hc, Hda, Hdb, Hdc. rewrite Ha, Hb, Hc. simpl.
    by rewrite Hda, Hdb, Hdc. }
  apply run_Opt in H1 as [(x & t & Hx & Hxs & ->)%run_Lit| ->].
  - rewrite same_letter_dollar in Hxs. simpl in Hd.
    unfold amount_at. rewrite Hx, Hxs, Hd. apply orb_true_r.
  - unfold amount_at. by rewrite Hd.
Qed.

Lemma first_budget_pattern_needs_digits r st :
  budget_patterns !! 0 = Some r →
  amount_at (rest st) = false → run r st = [].
Proof.
  intros [= <-] Hst. apply elem_of_nil_inv. intros st' Hst'.
  unfold pattern in Hst'.
  apply run_Seq in Hst' as (st1 & H1%amount_needs_digits & _). congruence.
Qed.

Lemma has_three_digits_cons x s :
  has_three_digits (x :: s) = three_digits_at (x :: s) || has_three_digits s.
Proof. done. Qed.

Lemma three_digits_at_before_dollar s t :
  three_digits_at s = false → three_digits_at (s ++ "$"%char :: t) = false.
Proof.
  destruct s as [|a [|b [|c s]]]; intros Hs; cbn [app three_digits_at].
  - by destruct t as [|? [|? ?]].
  - destruct t; [done|]. by destruct (is_digit a).
  - by destruct (is_digit a), (is_digit b).
  - done.
Qed.

Lemma has_three_digits_false s :
  has_three_digits s = false → three_digits_at s = false.
Proof.
  destruct s as [|x s]; [done|]. rewrite has_three_digits_cons.
  by intros [? _]%orb_false_iff.
Qed.

(** The search passes over a text without three digits in a row. *)
Lemma search_from_skip r pre t offset before :
  (∀ st, amount_at (rest st) = false → run r st = []) →
  has_three_digits pre = false →
  ∃ before',
    search_from r offset before (pre ++ "$"%char :: t)
    = search_from r (offset + length pre) before' ("$"%char :: t).
Proof.
  intros Hr. revert offset before.
  induction pre as [|x pre IH]; intros offset before Hpre.
  - exists before. simpl. by rewrite Nat.add_0_r.
  - rewrite has_three_digits_cons in Hpre.
    apply orb_false_iff in Hpre as [Hx Hpre].
    destruct (IH (S offset) (Some x) Hpre) as [before' IH'].
    exists before'.
    replace (offset + length (x :: pre)) with (S offset + length pre)
      by (simpl; lia).
    rewrite <-IH'. cbn [app search_from]. rewrite Hr; [done|].
    pose proof (three_digits_at_before_dollar (x :: pre) t Hx) as H1.
    pose proof (three_digits_at_before_dollar pre t
                  (has_three_digits_false pre Hpre)) as H2.
    cbn [app] in H1. cbn [rest]. unfold amount_at.
    by rewrite H1, H2, andb_false_r.
Qed.

Lemma run_Seq_miss a b st : run a st = [] → run (Seq a b) st = [].
Proof. intros Ha. simpl. by rewrite Ha. Qed.

Lemma head_digits_greedy p a b c t post g :
  is_digit a = true → is_digit b = true → is_digit c = true →
  Forall (λ x, is_digit x = true) t → length t ≤ 2 →
  (∀ x, head post = Some x → is_digit x = false) →
  head (run (Rep 3 2 (Cls Digit)) (State p (a :: b :: c :: t ++ post) g))
  = Some (State (last (a :: b :: c :: t)) post g).
Proof.
  intros Ha Hb Hc Ht Hlen Hpost.
  assert (∀ q, run (Cls Digit) (State q post g) = []) as Hmiss
    by (intros q; by apply run_digit_miss).
  change (Rep 3 2 (Cls Digit))
    with (Seq (Cls Digit) (Seq (Cls Digit) (Seq (Cls Digit)
            (Opt (Seq (Cls Digit) (Opt (Seq (Cls Digit) Eps))))))).
  eapply head_run_Seq; [by rewrite run_digit_hit|].
  eapply head_run_Seq; [by rewrite run_digit_hit|].
  eapply head_run_Seq; [by rewrite run_digit_hit|].
  destruct t as [|d [|e [|]]]; [| | |simpl in Hlen; lia]; cbn [app last].
  - by rewrite head_run_Opt_miss by apply run_Seq_miss, Hmiss.
  - apply Forall_cons in Ht as [Hd _].
    apply head_run_Opt_hit.
    eapply head_run_Seq; [by rewrite run_digit_hit|].
    by rewrite head_run_Opt_miss by apply run_Seq_miss, Hmiss.
  - apply Forall_cons in Ht as [Hd [He _]%Forall_cons].
    apply head_run_Opt_hit.
    eapply head_run_Seq; [by rewrite run_digit_hit|].
    apply head_run_Opt_hit.
    eapply head_run_Seq; [by rewrite run_digit_hit|]. done.
Qed.

Lemma run_star_stops a st : run a st = [] → run (Star a) st = [st].
Proof.
  intros Ha. simpl. destruct (length (rest st)); [done|].
  simpl. by rewrite Ha.
Qed.

Lemma amount_stops p post g :
  amount_continues post = false →
  run (Star (Seq (Lit ",") (Rep 3 0 (Cls Digit)))) (State p post g)
  = [State p post g].
Proof.
  intros Hpost. apply run_star_stops. apply elem_of_nil_inv. intros st'.
  change (Rep 3 0 (Cls Digit))
    with (Seq (Cls Digit) (Seq (Cls Digit) (Seq (Cls Digit) Eps))).
  intros (st1 & (x & t & Hx & Hc & ->)%run_Lit & H)%run_Seq.
  apply run_Seq in H as (sa & (a & ta & Ha & Hda & ->)%run_Cls & H).
  apply run_Seq in H as (sb & (b & tb & Hb & Hdb & ->)%run_Cls & H).
  apply run_Seq in H as (sc & (c & tc & Hc' & Hdc & ->)%run_Cls & _).
  simpl in *. subst. rewrite same_letter_comma in Hc.
  simpl in Hpost. rewrite Hc, Hda, Hdb, Hdc in Hpost.
  by rewrite orb_true_r in Hpost.
Qed.

Lemma run_Opt_nonempty a st : run (Opt a) st ≠ [].
Proof. simpl. by intros [_ ?]%app_nil. Qed.

Lemma head_run_Group a st st1 :
  head (run a st) = Some st1 →
  head (run (Group a) st)
  = Some {| prev := prev st1; rest := rest st1;
            group1 := Some (consumed st st1) |}.
Proof. simpl. by destruct (run a st) as [|? ?]; [|intros [= ->]]. Qed.

Lemma amount_continues_no_digit post x :
  amount_continues post = false → head post = Some x → is_digit x = false.
Proof.
  destruct post as [|y post]; [done|]. simpl.
  by intros [? _]%orb_false_iff [= <-].
Qed.

(** At a dollar sign followed by three to five digits after which the amount
    cannot go on, the first budget pattern captures exactly these digits. *)
Lemma first_budget_pattern_at_token r p a b c t post :
  budget_patterns !! 0 = Some r →
  is_digit a = true → is_digit b = true → is_digit c = true →
  Forall (λ x, is_digit x = true) t → length t ≤ 2 →
  amount_continues post = false →
  ∃ st', head (run r (State p ("$"%char :: a :: b :: c :: t ++ post) None))
         = Some st' ∧ group1 st' = Some (a :: b :: c :: t).
Proof.
  intros [= <-] Ha Hb Hc Ht Hlen Hpost. unfold pattern.
  set (st1 := State (Some "$"%char) (a :: b :: c :: t ++ post) None).
  set (st2 := State (last (a :: b :: c :: t)) post None).
  set (st3 := State (last (a :: b :: c :: t)) post (Some (a :: b :: c :: t))).
  assert (head (run amount (State p ("$"%char :: a :: b :: c :: t ++ post) None))
          = Some st3) as Hamount.
  { unfold amount, pattern.
    eapply head_run_Seq; [apply head_run_Opt_hit; reflexivity|].
    fold st1.
    replace st3 with {| prev := prev st2; rest := rest st2;
                        group1 := Some (consumed st1 st2) |}
      by (unfold st3; f_equal; f_equal;
          by apply (consumed_app st1 st2 (a :: b :: c :: t))).
    apply head_run_Group.
    eapply head_run_Seq.
    - apply head_digits_greedy; try done.
      intros x. by apply amount_continues_no_digit.
    - by rewrite amount_stops. }
  destruct (run (Opt (Seq (Star (Cls Space))
                        (Words ["dollars"; "USD"; "bucks"]))) st3)
    as [|st' rest'] eqn:Hsuffix.
  { by apply run_Opt_nonempty in Hsuffix. }
  exists st'. split.
  - eapply head_run_Seq; [done|]. by rewrite Hsuffix.
  - assert (st' ∈ run (Opt (Seq (Star (Cls Space))
                        (Words ["dollars"; "USD"; "bucks"]))) st3) as Hin
      by (rewrite Hsuffix; apply list_elem_of_here).
    by apply run_group_free in Hin.
Qed.

Lemma search_from_hit r offset before s st' :
  head (run r (State before s None)) = Some st' →
  search_from r offset before s
  = Some (Match offset (consumed (State before s None) st') (group1 st')).
Proof. intros Hh. destruct s; simpl; by rewrite Hh. Qed.

Lemma remove_commas_id w :
  Forall (λ x, is_digit x = true) w → remove_commas w = w.
Proof.
  induction 1 as [|x w Hx _ IH]; [done|]. unfold remove_commas in *.
  rewrite filter_cons_True by by apply is_digit_not_comma. by rewrite IH.
Qed.

Lemma dollar_token_budget pre n post :
  (100 ≤ n ≤ 99999)%Z →
  has_three_digits pre = false → amount_continues post = false →
  budget (_extract_preferences
            (string_of_list_ascii (pre ++ "$"%char :: decimal n ++ post)))
  = Some (Qc_of_Z n).
Proof.
  intros (a & b & c & t & Hn & Ha & Hb & Hc & Ht & Hlen & Hint)%decimal_spec
    Hpre Hpost.
  unfold _extract_preferences. cbn [budget].
  destruct budget_patterns as [|r patterns] eqn:Hpatterns; [done|].
  assert (budget_patterns !! 0 = Some r) as Hr by by rewrite Hpatterns.
  cbn [extract_budget]. unfold search.
  rewrite list_ascii_of_string_of_list_ascii.
  destruct (search_from_skip r pre (decimal n ++ post) 0 None
              (λ st, first_budget_pattern_needs_digits r st Hr) Hpre)
    as [before ->].
  rewrite Hn in *. cbn [app].
  destruct (first_budget_pattern_at_token r before a b c t post
              Hr Ha Hb Hc Ht Hlen Hpost) as (st' & Hhead & Hgroup).
  rewrite (search_from_hit _ _ _ _ _ Hhead). unfold group. cbn [group_1].
  rewrite Hgroup. cbn [default from_option id].
  rewrite remove_commas_id by (by repeat constructor).
  unfold float. by rewrite Hint.
Qed.

(** *** Numbers read next to the token *)

(** Two ways of cutting one text: a number that overlaps the token ends
    where the token ends. *)
Lemma number_in_token skipped w t pre ds post :
  skipped ++ w ++ t = pre ++ "$"%char :: ds ++ post →
  Forall (λ x, is_digit x = true) w →
  Forall (λ x, is_digit x = true) ds →
  (∀ x, head post = Some x → is_digit x = false) →
  (∀ x, head t = Some x → is_digit x = false) →
  length skipped + length w ≤ length pre ∨
  length pre + 1 + length ds ≤ length skipped ∨
  t = post.
Proof.
  intros Heq Hw Hds Hpost Ht.
  destruct (decide (length skipped + length w ≤ length pre)) as [|He];
    [by left|].
  destruct (decide (length pre + 1 + length ds ≤ length skipped)) as [|Hi];
    [by right; left|].
  right; right.
  assert (∀ k, (skipped ++ w ++ t) !! k
               = (pre ++ ["$"%char] ++ ds ++ post) !! k) as Hk
    by (intros k; by rewrite Heq).
  (* the dollar sign is not inside the number *)
  assert (length pre < length skipped) as Hp.
  { apply Nat.nlt_ge. intros Hle%Nat.nlt_ge. specialize (Hk (length pre)).
    rewrite lookup_app_r, lookup_app_l in Hk by lia.
    rewrite (lookup_app_r pre), Nat.sub_diag in Hk by lia.
    simpl in Hk. by apply (Forall_lookup_1 _ _ _ _ Hw) in Hk. }
  (* the number does not go beyond the token *)
  assert (length skipped + length w ≤ length pre + 1 + length ds) as Hend.
  { apply Nat.nlt_ge. intros Hlt.
    specialize (Hk (length pre + 1 + length ds)).
    rewrite lookup_app_r, lookup_app_l in Hk by lia.
    rewrite (lookup_app_r pre), (lookup_app_r ["$"%char]),
      (lookup_app_r ds) in Hk by (simpl; lia).
    replace (length pre + 1 + length ds - length pre - length ["$"%char]
             - length ds) with 0 in Hk by (simpl; lia).
    rewrite <-head_lookup in Hk.
    destruct (w !! _) as [x|] eqn:Hx.
    - apply (Forall_lookup_1 _ _ _ _ Hw) in Hx.
      symmetry in Hk. apply Hpost in Hk. congruence.
    - apply lookup_ge_None in Hx. lia. }
  (* the number does not stop inside the token *)
  assert (length skipped + length w = length pre + 1 + length ds) as Hlen.
  { apply Nat.le_antisymm; [done|]. apply Nat.nlt_ge. intros Hlt.
    specialize (Hk (length skipped + length w)).
    rewrite lookup_app_r, lookup_app_r in Hk by lia.
    replace (length skipped + length w - length skipped - length w)
      with 0 in Hk by lia.
    rewrite <-head_lookup in Hk.
    rewrite (lookup_app_r pre), (lookup_app_r ["$"%char]),
      lookup_app_l in Hk by (simpl; lia).
    destruct (ds !! _) as [x|] eqn:Hx.
    - apply (Forall_lookup_1 _ _ _ _ Hds) in Hx. apply Ht in Hk. congruence.
    - apply lookup_ge_None in Hx. simpl in Hx. lia. }
  apply (f_equal (drop (length pre + 1 + length ds))) in Heq.
  rewrite <-Hlen in Heq at 1.
  rewrite (app_assoc skipped w t), drop_app_length' in Heq
    by (by rewrite length_app).
  rewrite Heq.
  change (pre ++ "$"%char :: ds ++ post)
    with (pre ++ ["$"%char] ++ ds ++ post).
  rewrite !app_assoc. apply drop_app_length'.
  rewrite !length_app. simpl. lia.
Qed.

Lemma ram_unit_starts_without_digit x :
  first ram_unit x = true → is_digit x = false.
Proof. destruct x as [[] [] [] [] [] [] [] []]; by vm_compute. Qed.

Lemma storage_unit_starts_without_digit x :
  first storage_unit x = true → is_digit x = false.
Proof. destruct x as [[] [] [] [] [] [] [] []]; by vm_compute. Qed.

(** A number with a unit is not read from the token unless the unit follows
    the token. *)
Lemma number_outside_token unit pre n post m :
  (100 ≤ n ≤ 99999)%Z → amount_continues post = false →
  group_free unit = true → nullable unit = false →
  (∀ x, first unit x = true → is_digit x = false) →
  ¬ follows unit post →
  search (Seq (Group (Plus (Cls Digit))) unit)
    (string_of_list_ascii (pre ++ "$"%char :: decimal n ++ post)) = Some m →
  outside_token pre n m.
Proof.
  intros (a & b & c & t & Hn & Ha & Hb & Hc & Ht & _)%decimal_spec
    Hpost Hfree Hnull Hfirst Hunit
    (skipped & s' & p & st' & Hs & Hstart & Hst' & _ & Hg)%search_Some.
  rewrite list_ascii_of_string_of_list_ascii in Hs.
  apply (run_number_then unit Hfree) in Hst'
    as (w & t' & Hw & _ & Hdw & Hs' & Hfollows).
  simpl in Hs'. rewrite Hs' in Hs.
  unfold outside_token. rewrite Hg, Hw, Hstart. cbn [default from_option id].
  destruct (follows_first unit t' Hnull Hfollows) as (x & t'' & -> & Hx).
  destruct (number_in_token skipped w (x :: t'') pre (decimal n) post)
    as [?|[?|Heq]]; try done.
  - rewrite Hn. by repeat constructor.
  - intros y. by apply amount_continues_no_digit.
  - intros y [= <-]. by apply Hfirst.
  - by left.
  - by right.
  - destruct Hunit. by rewrite <-Heq.
Qed.

(** *** The claim about dollar tokens *)

(** C4, as stated, fails: the first budget pattern takes the first run of
    three digits of the utterance, which need not be the one of the
    token. *)
Lemma dollar_token_counterexample :
  ¬ (∀ s n,
       (100 ≤ n ≤ 99999)%Z → dollar_token n s →
       budget (_extract_preferences (string_of_list_ascii s))
       = Some (Qc_of_Z n)).
Proof.
  intros H.
  specialize (H (list_ascii_of_string "512GB SSD under $900") 900%Z).
  assert (Some (Qc_of_Z 512) = Some (Qc_of_Z 900)) as Heq; [|done].
  apply H; [lia|].
  exists (list_ascii_of_string "512GB SSD under "), [].
  split; [reflexivity|]. split; [by intros c [= <-]|done].
Qed.

(** The other half of C4 fails as well: the digits of a token that is
    followed by a storage word are also read as the storage. *)
Example dollar_token_read_as_storage :
  dollar_token 1500 (list_ascii_of_string "$1500 SSD") ∧
  budget (_extract_preferences "$1500 SSD") = Some (Qc_of_Z 1500) ∧
  min_storage (_extract_preferences "$1500 SSD") = Some 1500%Z ∧
  start <$> search storage_pattern "$1500 SSD" = Some 1.
Proof.
  split; [|repeat split; vm_compute; reflexivity].
  exists [], (list_ascii_of_string " SSD").
  split; [reflexivity|]. split; [done|by intros c [= <-]].
Qed.

(** C4, amended.  Take an utterance [pre $n post] with [n] from 100 to
    99999, no three digits in a row in [pre], and a [post] that does not
    let the amount go on (it starts neither with a digit nor with a comma
    and three digits).  Then the budget is [n]; and if [min_ram] or
    [min_storage] is set, it is read from a match whose number lies
    outside the token, unless the unit text of that pattern can be matched
    right after the token. *)
Theorem dollar_token_sets_budget pre n post :
  (100 ≤ n ≤ 99999)%Z →
  has_three_digits pre = false → amount_continues post = false →
  budget (_extract_preferences
            (string_of_list_ascii (pre ++ "$"%char :: decimal n ++ post)))
  = Some (Qc_of_Z n) ∧
  (¬ follows ram_unit post →
   ∀ v, min_ram (_extract_preferences
                   (string_of_list_ascii
                      (pre ++ "$"%char :: decimal n ++ post))) = Some v →
        ∃ m, search ram_pattern
               (string_of_list_ascii (pre ++ "$"%char :: decimal n ++ post))
             = Some m ∧
             int (group m) = Some v ∧ outside_token pre n m) ∧
  (¬ follows storage_unit post →
   ∀ v, min_storage (_extract_preferences
                       (string_of_list_ascii
                          (pre ++ "$"%char :: decimal n ++ post))) = Some v →
        ∃ m, search storage_pattern
               (string_of_list_ascii (pre ++ "$"%char :: decimal n ++ post))
             = Some m ∧
             outside_token pre n m).
Proof.
  intros Hn Hpre Hpost. split; [by apply dollar_token_budget|]. split.
  - intros Hunit v. unfold _extract_preferences. cbn [min_ram].
    unfold extract_ram.
    destruct (search ram_pattern _) as [m|] eqn:Hm; [|done].
    intros Hv. exists m. split; [done|]. split; [done|].
    eapply (number_outside_token ram_unit); try done.
    apply ram_unit_starts_without_digit.
  - intros Hunit v. unfold _extract_preferences. cbn [min_storage].
    unfold extract_storage.
    destruct (search storage_pattern _) as [m|] eqn:Hm; [|done].
    intros Hv. exists m. split; [done|].
    eapply (number_outside_token storage_unit); try done.
    apply storage_unit_starts_without_digit.
Qed.

Lemma dollar_token_sets_budget_witness :
  ((100 ≤ 1500 ≤ 99999)%Z ∧
   has_three_digits (list_ascii_of_string "a gaming laptop under ") = false ∧
   amount_continues (list_ascii_of_string ", with 16GB of RAM") = false) ∧
  budget (_extract_preferences
            (string_of_list_ascii
               (list_ascii_of_string "a gaming laptop under "
                ++ "$"%char :: decimal 1500
                ++ list_ascii_of_string ", with 16GB of RAM")))
  = Some (Qc_of_Z 1500) ∧
  ¬ follows ram_unit (list_ascii_of_string ", with 16GB of RAM") ∧
  ∀ v, min_ram (_extract_preferences
                  (string_of_list_ascii
                     (list_ascii_of_string "a gaming laptop under "
                      ++ "$"%char :: decimal 1500
                      ++ list_ascii_of_string ", with 16GB of RAM")))
       = Some v →
       ∃ m, search ram_pattern
              (string_of_list_ascii
                 (list_ascii_of_string "a gaming laptop under "
                  ++ "$"%char :: decimal 1500
                  ++ list_ascii_of_string ", with 16GB of RAM"))
            = Some m ∧
            int (group m) = Some v ∧
            outside_token (list_ascii_of_string "a gaming laptop under ")
              1500 m.
Proof.
  assert (¬ follows ram_unit (list_ascii_of_string ", with 16GB of RAM"))
    as Hunit.
  { intros ([p s g] & st' & Hs & Hst'). simpl in Hs. subst s.
    vm_compute in Hst'. by apply elem_of_nil in Hst'. }
  split; [split; [lia|split; reflexivity]|].
  destruct (dollar_token_sets_budget
              (list_ascii_of_string "a gaming laptop under ") 1500
              (list_ascii_of_string ", with 16GB of RAM"))
    as (Hbudget & Hram & _); [lia|reflexivity|reflexivity|].
  split; [exact Hbudget|]. split; [exact Hunit|]. exact (Hram Hunit).
Defined.

End extraction.

(** ** More about the recommendation engine *)

Section engine_more.
Import Py RecommendationEngine Spec EngineSpec.

Implicit Types (data laptops : list laptop) (l : laptop).
Implicit Types (budget : Qc) (usage_type : string) (limit : Z).
Implicit Types (brand_preference : option string).
Implicit Types (min_ram min_storage : option Z) (prefer_gpu : bool).

(** *** What the filter keeps *)

Lemma filter_results_elem_of data budget usage_type brand_preference
    min_ram min_storage prefer_gpu l :
  l ∈ filter_results data budget usage_type brand_preference min_ram
        min_storage prefer_gpu ↔
  l ∈ data ∧
  meets budget usage_type brand_preference min_ram min_storage prefer_gpu l.
Proof.
  unfold filter_results, meets, gpu_needed, min_ram_used, min_storage_used.
  destruct (truthy brand_preference),
    (default false (req_gpu_required (requirements_or_general usage_type))
     || prefer_gpu);
    rewrite !list_elem_of_filter; destruct min_ram, min_storage;
    intuition (try done).
Qed.

(** The relaxed pass as called is the pass without thresholds of the
    caller. *)
Lemma filter_results_profile_thresholds data budget usage_type
    brand_preference prefer_gpu :
  filter_results data budget usage_type brand_preference
    (Some (default 4%Z (req_min_ram (requirements_or_general usage_type))))
    (Some (default 128%Z
             (req_min_storage (requirements_or_general usage_type))))
    prefer_gpu
  = filter_results data budget usage_type brand_preference None None
      prefer_gpu.
Proof. done. Qed.

(** The outcome of [get_recommendations] is the ranking of the
    candidates, unless the usage type is unknown and the strict pass
    empty. *)
Lemma get_recommendations_outcome data budget usage_type brand_preference
    min_ram min_storage prefer_gpu limit :
  usage_type ∈ UsageType.members ∨
  filter_results data budget usage_type brand_preference min_ram
    min_storage prefer_gpu ≠ [] →
  outcome (get_recommendations data budget usage_type brand_preference
             min_ram min_storage prefer_gpu limit)
  = ranked (candidates data budget usage_type brand_preference min_ram
              min_storage prefer_gpu) usage_type budget limit.
Proof.
  intros Hok. unfold candidates.
  destruct (filter_results data budget usage_type brand_preference min_ram
              min_storage prefer_gpu) as [|l ls] eqn:Hf.
  - destruct Hok as [[reqs Hreqs]%usage_requirements_members|]; [|done].
    rewrite (get_recommendations_relaxed _ _ _ _ _ _ _ _ reqs) by done.
    rewrite <-filter_results_profile_thresholds.
    unfold requirements_or_general. by rewrite Hreqs.
  - rewrite get_recommendations_strict by (by rewrite Hf). by rewrite Hf.
Qed.

Lemma get_recommendations_Ok data budget usage_type brand_preference
    min_ram min_storage prefer_gpu limit out :
  outcome (get_recommendations data budget usage_type brand_preference
             min_ram min_storage prefer_gpu limit) = Ok out →
  ranked (candidates data budget usage_type brand_preference min_ram
            min_storage prefer_gpu) usage_type budget limit = Ok out.
Proof.
  intros Hout. rewrite <-get_recommendations_outcome; [done|].
  destruct (filter_results data budget usage_type brand_preference min_ram
              min_storage prefer_gpu) as [|l ls] eqn:Hf; [|by right].
  left. apply usage_requirements_members.
  destruct (usage_requirements !! usage_type) eqn:Hreqs; [done|].
  by rewrite get_recommendations_unknown in Hout.
Qed.

Lemma returned_meet_constraints data budget usage_type
    brand_preference min_ram min_storage prefer_gpu limit :
  Forall
    (λ x,
       scored x ∈ data ∧
       match filter_results data budget usage_type brand_preference min_ram
               min_storage prefer_gpu with
       | [] => meets (budget * d 11 10)%Qc usage_type None None None
                 prefer_gpu (scored x)
       | _ :: _ => meets budget usage_type brand_preference min_ram
                     min_storage prefer_gpu (scored x)
       end)
    (returned
       (outcome (get_recommendations data budget usage_type brand_preference
                   min_ram min_storage prefer_gpu limit))).
Proof.
  destruct (outcome _) as [out|e] eqn:Hout; [|constructor].
  apply get_recommendations_Ok in Hout. simpl. apply Forall_forall.
  intros x Hx%(ranked_elem_of _ _ _ _ _ _ Hout). unfold candidates in Hx.
  destruct (filter_results data budget usage_type brand_preference min_ram
              min_storage prefer_gpu) as [|l ls] eqn:Hf.
  - by apply filter_results_elem_of in Hx.
  - rewrite <-Hf in Hx. by apply filter_results_elem_of in Hx.
Qed.


(** X2. For gaming and creative use, or when a dedicated GPU is asked
    for, every laptop returned has a GPU description that is neither
    empty nor the text None; the relaxed pass does not give this up. *)
Theorem gpu_requirement_always_kept data budget usage_type brand_preference
    min_ram min_storage prefer_gpu limit :
  usage_type = UsageType.GAMING ∨ usage_type = UsageType.CREATIVE ∨
  prefer_gpu = true →
  Forall (λ x, ∃ g, gpu (scored x) = Some g ∧ g ≠ "" ∧ g ≠ "None")
    (returned
       (outcome (get_recommendations data budget usage_type brand_preference
                   min_ram min_storage prefer_gpu limit))).
Proof.
  intros Hgpu.
  assert (gpu_needed usage_type prefer_gpu = true) as Hneeded.
  { unfold gpu_needed. destruct Hgpu as [->|[->| ->]]; try done.
    apply orb_true_r. }
  eapply Forall_impl; [apply returned_meet_constraints|].
  intros x [_ Hx]. simpl in Hx.
  assert (has_gpu (scored x) = true) as Hhas.
  { destruct (filter_results _ _ _ _ _ _ _);
      destruct Hx as (_ & _ & _ & _ & Hx); by apply Hx. }
  unfold has_gpu in Hhas. destruct (gpu (scored x)) as [g|]; [|done].
  exists g. apply andb_true_iff in Hhas as [H1 H2].
  split; [done|]. split; intros ->; done.
Qed.

(** *** Tighter constraints, fewer laptops *)

Lemma filter_sublist_impl {A} (P Q : A → Prop) `{!∀ x, Decision (P x)}
    `{!∀ x, Decision (Q x)} (xs ys : list A) :
  (∀ x, P x → Q x) → xs `sublist_of` ys →
  filter P xs `sublist_of` filter Q ys.
Proof.
  intros HPQ Hsub. induction Hsub as [|x xs ys _ IH|x xs ys _ IH]; [done| |].
  - rewrite !filter_cons. destruct (decide (P x)), (decide (Q x)).
    + by constructor.
    + exfalso. auto.
    + by constructor.
    + done.
  - rewrite (filter_cons _ x). destruct (decide (Q x)); [by constructor|done].
Qed.

(** X3. [_filter_laptops] is monotone: with a budget at least as large,
    thresholds at most as large, and a GPU wish only if there was one
    before, it keeps every laptop it kept before, in the same order; it
    also does when in addition the brand preference is dropped. *)
Theorem filter_monotone data budget budget' usage_type brand_preference
    min_ram min_ram' min_storage min_storage' prefer_gpu prefer_gpu' :
  (budget ≤ budget')%Qc →
  (min_ram_used usage_type min_ram' ≤ min_ram_used usage_type min_ram)%Z →
  (min_storage_used usage_type min_storage'
   ≤ min_storage_used usage_type min_storage)%Z →
  (prefer_gpu' = true → prefer_gpu = true) →
  filter_results data budget usage_type brand_preference min_ram
    min_storage prefer_gpu `sublist_of`
  filter_results data budget' usage_type brand_preference min_ram'
    min_storage' prefer_gpu' ∧
  filter_results data budget usage_type brand_preference min_ram
    min_storage prefer_gpu `sublist_of`
  filter_results data budget' usage_type None min_ram' min_storage'
    prefer_gpu'.
Proof.
  intros Hb Hr Hs Hg.
  assert (∀ brand',
            brand' = brand_preference ∨ brand' = None →
            filter_results data budget usage_type brand_preference min_ram
              min_storage prefer_gpu `sublist_of`
            filter_results data budget' usage_type brand' min_ram'
              min_storage' prefer_gpu') as Hmono; [|by split; apply Hmono; auto].
  intros brand' Hbrand. unfold filter_results.
  fold (min_ram_used usage_type min_ram) (min_ram_used usage_type min_ram')
    (min_storage_used usage_type min_storage)
    (min_storage_used usage_type min_storage').
  set (gpu_required :=
         default false (req_gpu_required (requirements_or_general usage_type))).
  assert (filter (λ l, (min_storage_used usage_type min_storage ≤ storage l)%Z)
            (filter (λ l, (min_ram_used usage_type min_ram ≤ ram l)%Z)
               (filter (λ l, (price l ≤ budget)%Qc) data))
          `sublist_of`
          filter (λ l, (min_storage_used usage_type min_storage' ≤ storage l)%Z)
            (filter (λ l, (min_ram_used usage_type min_ram' ≤ ram l)%Z)
               (filter (λ l, (price l ≤ budget')%Qc) data))) as H3.
  { apply filter_sublist_impl; [intros; lia|].
    apply filter_sublist_impl; [intros; lia|].
    apply filter_sublist_impl; [|done]. intros x Hx. by etrans. }
  assert ((if truthy brand_preference
           then filter (λ l, lower (brand l)
                             = lower (default "" brand_preference))
                  (filter (λ l, (min_storage_used usage_type min_storage
                                 ≤ storage l)%Z)
                     (filter (λ l, (min_ram_used usage_type min_ram ≤ ram l)%Z)
                        (filter (λ l, (price l ≤ budget)%Qc) data)))
           else filter (λ l, (min_storage_used usage_type min_storage
                              ≤ storage l)%Z)
                  (filter (λ l, (min_ram_used usage_type min_ram ≤ ram l)%Z)
                     (filter (λ l, (price l ≤ budget)%Qc) data)))
          `sublist_of`
          (if truthy brand'
           then filter (λ l, lower (brand l) = lower (default "" brand'))
                  (filter (λ l, (min_storage_used usage_type min_storage'
                                 ≤ storage l)%Z)
                     (filter (λ l, (min_ram_used usage_type min_ram' ≤ ram l)%Z)
                        (filter (λ l, (price l ≤ budget')%Qc) data)))
           else filter (λ l, (min_storage_used usage_type min_storage'
                              ≤ storage l)%Z)
                  (filter (λ l, (min_ram_used usage_type min_ram' ≤ ram l)%Z)
                     (filter (λ l, (price l ≤ budget')%Qc) data)))) as H4.
  { destruct Hbrand as [->| ->].
    - destruct (truthy brand_preference); [|done].
      by apply filter_sublist_impl.
    - simpl. destruct (truthy brand_preference); [|done].
      etrans; [apply sublist_filter|done]. }
  destruct (gpu_required || prefer_gpu) eqn:Hg1,
    (gpu_required || prefer_gpu') eqn:Hg2.
  - by apply filter_sublist_impl.
  - etrans; [apply sublist_filter|done].
  - apply orb_true_iff in Hg2 as [Hg2|Hg2].
    + by rewrite Hg2 in Hg1.
    + rewrite (Hg Hg2) in Hg1. by rewrite orb_true_r in Hg1.
  - done.
Qed.

(** *** The ranking *)


Lemma slice_to_mono {A} (n m : Z) (xs : list A) :
  (0 ≤ n ≤ m)%Z → slice_to n xs `prefix_of` slice_to m xs.
Proof.
  intros Hnm. unfold slice_to.
  destruct (Z.leb_spec 0 n); [|lia]. destruct (Z.leb_spec 0 m); [|lia].
  replace (take (Z.to_nat n) xs)
    with (take (Z.to_nat n) (take (Z.to_nat m) xs)); [apply prefix_take|].
  rewrite take_take. f_equal. lia.
Qed.





(** X6. The only exceptions of [get_recommendations]: [KeyError] with
    the usage type as key, exactly when the usage type is not in the
    table and the strict pass is empty; [ZeroDivisionError], exactly when
    the budget is zero and there is a candidate to score. *)
Theorem get_recommendations_raises data budget usage_type brand_preference
    min_ram min_storage prefer_gpu limit e :
  outcome (get_recommendations data budget usage_type brand_preference
             min_ram min_storage prefer_gpu limit) = Raise e ↔
  (e = KeyError usage_type ∧ (usage_type ∉ UsageType.members) ∧
   filter_results data budget usage_type brand_preference min_ram
     min_storage prefer_gpu = []) ∨
  (e = ZeroDivisionError ∧ budget = 0%Qc ∧
   candidates data budget usage_type brand_preference min_ram min_storage
     prefer_gpu ≠ [] ∧
   (usage_type ∈ UsageType.members ∨
    filter_results data budget usage_type brand_preference min_ram
      min_storage prefer_gpu ≠ [])).
Proof.
  destruct (decide (usage_type ∈ UsageType.members ∨
                    filter_results data budget usage_type brand_preference
                      min_ram min_storage prefer_gpu ≠ [])) as [Hok|Hbad].
  - rewrite get_recommendations_outcome by done. rewrite ranked_eq.
    split.
    + intros Hr. right.
      destruct (candidates _ _ _ _ _ _ _) as [|l ls]; [done|].
      case_decide; [|done]. by injection Hr as <-.
    + intros [(_ & Hu & Hf)|(-> & -> & Hc & _)].
      { destruct Hok as [Hok|Hok]; [by destruct Hu|by destruct Hok]. }
      destruct (candidates _ _ _ _ _ _ _) as [|l ls]; [done|].
      by rewrite decide_True.
  - assert (usage_type ∉ UsageType.members) as Hu by tauto.
    assert (filter_results data budget usage_type brand_preference min_ram
              min_storage prefer_gpu = []) as Hf.
    { destruct (filter_results _ _ _ _ _ _ _); [done|].
      destruct Hbad. by right. }
    rewrite get_recommendations_unknown; [|done|].
    + simpl. split; [by intros [= <-]; left|].
      intros [(-> & _)|(_ & _ & _ & H)]; [done|]. by destruct Hbad.
    + rewrite usage_requirements_members in Hu.
      by apply eq_None_not_Some.
Qed.

(** X7. Raising a limit that is not negative only appends to the list
    returned. *)
Theorem larger_limit_extends_the_list data budget usage_type
    brand_preference min_ram min_storage prefer_gpu limit limit' :
  (0 ≤ limit ≤ limit')%Z →
  returned (outcome (get_recommendations data budget usage_type
                       brand_preference min_ram min_storage prefer_gpu
                       limit))
  `prefix_of`
  returned (outcome (get_recommendations data budget usage_type
                       brand_preference min_ram min_storage prefer_gpu
                       limit')).
Proof.
  intros Hl.
  destruct (decide (usage_type ∈ UsageType.members ∨
                    filter_results data budget usage_type brand_preference
                      min_ram min_storage prefer_gpu ≠ [])) as [Hok|Hbad].
  - rewrite !get_recommendations_outcome by done. rewrite !ranked_eq.
    destruct (candidates _ _ _ _ _ _ _) as [|l ls]; [done|].
    case_decide; [done|]. by apply slice_to_mono.
  - assert (usage_type ∉ UsageType.members) as Hu by tauto.
    assert (filter_results data budget usage_type brand_preference min_ram
              min_storage prefer_gpu = []) as Hf.
    { destruct (filter_results _ _ _ _ _ _ _); [done|].
      destruct Hbad. by right. }
    rewrite usage_requirements_members in Hu.
    apply eq_None_not_Some in Hu.
    by rewrite !get_recommendations_unknown.
Qed.

(** *** The brand preference *)

Lemma lower_empty s : lower s = "" ↔ s = "".
Proof. by destruct s. Qed.

Lemma truthy_lower b1 b2 :
  lower b1 = lower b2 → truthy (Some b1) = truthy (Some b2).
Proof.
  intros Hb. simpl. destruct b1, b2; try done.
Qed.

Lemma get_recommendations_outcome_ext data budget usage_type
    brand_preference brand_preference' min_ram min_storage prefer_gpu limit :
  filter_results data budget usage_type brand_preference min_ram
    min_storage prefer_gpu
  = filter_results data budget usage_type brand_preference' min_ram
      min_storage prefer_gpu →
  outcome (get_recommendations data budget usage_type brand_preference
             min_ram min_storage prefer_gpu limit)
  = outcome (get_recommendations data budget usage_type brand_preference'
               min_ram min_storage prefer_gpu limit).
Proof.
  intros Hf.
  destruct (filter_results data budget usage_type brand_preference
              min_ram min_storage prefer_gpu) as [|l ls] eqn:Hf'.
  - destruct (usage_requirements !! usage_type) as [reqs|] eqn:Hreqs.
    + by rewrite !(get_recommendations_relaxed _ _ _ _ _ _ _ _ reqs).
    + by rewrite !get_recommendations_unknown.
  - rewrite !get_recommendations_strict by congruence.
    simpl. congruence.
Qed.

(** X8. The brand preference is compared without regard to case: two
    spellings with the same lower-case form give the same outcome. *)
Theorem brand_preference_ignores_case data budget usage_type brand brand'
    min_ram min_storage prefer_gpu limit :
  lower brand = lower brand' →
  outcome (get_recommendations data budget usage_type (Some brand) min_ram
             min_storage prefer_gpu limit)
  = outcome (get_recommendations data budget usage_type (Some brand')
               min_ram min_storage prefer_gpu limit).
Proof.
  intros Hb. apply get_recommendations_outcome_ext.
  unfold filter_results. rewrite (truthy_lower _ _ Hb).
  cbn [default from_option id]. by rewrite Hb.
Qed.
(** *** The properties at concrete inputs *)

Lemma gpu_requirement_always_kept_witness :
  ("general" = UsageType.GAMING ∨ "general" = UsageType.CREATIVE ∨
   true = true) ∧
  Forall (λ x, ∃ g, gpu (scored x) = Some g ∧ g ≠ "" ∧ g ≠ "None")
    (returned
       (outcome (get_recommendations [dell; apple] (Qc_of_Z 1300) "general"
                   None None None true 5))).
Proof.
  split; [right; right; reflexivity|].
  apply (gpu_requirement_always_kept [dell; apple] (Qc_of_Z 1300) "general"
           None None None true 5).
  right; right; reflexivity.
Defined.

Lemma filter_monotone_witness :
  ((Qc_of_Z 1150 ≤ Qc_of_Z 1300)%Qc ∧
   (min_ram_used "general" None ≤ min_ram_used "general" (Some 8%Z))%Z ∧
   (min_storage_used "general" (Some 256%Z)
    ≤ min_storage_used "general" (Some 256%Z))%Z ∧
   (false = true → true = true)) ∧
  filter_results [dell; apple] (Qc_of_Z 1150) "general" (Some "apple")
    (Some 8%Z) (Some 256%Z) true `sublist_of`
  filter_results [dell; apple] (Qc_of_Z 1300) "general" (Some "apple") None
    (Some 256%Z) false ∧
  filter_results [dell; apple] (Qc_of_Z 1150) "general" (Some "apple")
    (Some 8%Z) (Some 256%Z) true `sublist_of`
  filter_results [dell; apple] (Qc_of_Z 1300) "general" None None
    (Some 256%Z) false.
Proof.
  assert ((Qc_of_Z 1150 ≤ Qc_of_Z 1300)%Qc) as Hb by (by vm_compute).
  assert ((min_ram_used "general" None
           ≤ min_ram_used "general" (Some 8%Z))%Z) as Hr by (by vm_compute).
  assert ((min_storage_used "general" (Some 256%Z)
           ≤ min_storage_used "general" (Some 256%Z))%Z) as Hs
    by reflexivity.
  split; [split; [exact Hb|split; [exact Hr|split; [exact Hs|done]]]|].
  apply (filter_monotone [dell; apple] (Qc_of_Z 1150) (Qc_of_Z 1300)
           "general" (Some "apple") (Some 8%Z) None (Some 256%Z)
           (Some 256%Z) true false Hb Hr Hs).
  done.
Defined.


Lemma larger_limit_extends_the_list_witness :
  (0 ≤ 1 ≤ 5)%Z ∧
  returned (outcome (get_recommendations [dell; apple] (Qc_of_Z 1300)
                       "general" None None None false 1))
  `prefix_of`
  returned (outcome (get_recommendations [dell; apple] (Qc_of_Z 1300)
                       "general" None None None false 5)).
Proof.
  split; [lia|].
  apply (larger_limit_extends_the_list [dell; apple] (Qc_of_Z 1300)
           "general" None None None false 1 5).
  lia.
Defined.

Lemma brand_preference_ignores_case_witness :
  lower "DELL" = lower "Dell" ∧
  outcome (get_recommendations [dell; apple] (Qc_of_Z 1300) "general"
             (Some "DELL") None None false 5)
  = outcome (get_recommendations [dell; apple] (Qc_of_Z 1300) "general"
               (Some "Dell") None None false 5).
Proof.
  split; [reflexivity|].
  apply (brand_preference_ignores_case [dell; apple] (Qc_of_Z 1300)
           "general" "DELL" "Dell" None None false 5).
  reflexivity.
Defined.

End engine_more.

(** ** The range of the scores *)

Section engine_score.
Import Py RecommendationEngine Spec EngineSpec.

Implicit Types (data laptops : list laptop) (l : laptop).
Implicit Types (budget : Qc) (usage_type : string) (limit : Z).
Implicit Types (brand_preference : option string).
Implicit Types (min_ram min_storage : option Z) (prefer_gpu : bool).
Implicit Types (reqs : requirements).

(** *** Arithmetic of the partial scores *)











Lemma Qc_of_Z_nonneg (z : Z) : (0 ≤ z)%Z → (0 ≤ Qc_of_Z z)%Qc.
Proof.
  intros Hz. unfold Qcle. simpl. unfold Qle. simpl. lia.
Qed.

(** *** The weights of the table *)





End engine_score.

(** ** More about the coordinator *)

Section chatbot_more.
Import Py Re ReSpec ChatBot ChatSpec TurnSpec EngineSpec.
Import RecommendationEngine (filter_results, d).

Implicit Types (self : chatbot) (env : environment) (request : ChatRequest).
Implicit Types (p : preferences).

Lemma literal_replies :
  greeting_text ≠ brand_question ∧ greeting_text ≠ open_question ∧
  budget_question ≠ brand_question ∧ budget_question ≠ open_question ∧
  no_match_text ≠ brand_question ∧ no_match_text ≠ open_question.
Proof. repeat split; by vm_compute. Qed.

Ltac unfold_turn :=
  unfold conversation_after, user_message, recorded_reply, greeting_turn,
    merged_preferences, turn_conversation, turn_conversation_id,
    turn_message, process_message.

(** *** What a turn stores *)

Lemma process_message_frame self env request conversation_id :
  conversation_id ≠ turn_conversation_id env request →
  conversations (process_message self env request).1 !! conversation_id
  = conversations self !! conversation_id.
Proof.
  unfold_turn. intros Hid.
  destruct (String.eqb _ _ || _is_greeting _);
    [|destruct (_has_sufficient_preferences _);
      [destruct (_get_recommendations _ _) as [t [[|r rs]|e]]|]];
    cbn [fst conversations]; by rewrite lookup_insert_ne.
Qed.

Lemma process_message_laptop_data self env request :
  laptop_data (process_message self env request).1 = laptop_data self.
Proof.
  unfold process_message.
  destruct (String.eqb _ _ || _is_greeting _);
    [|destruct (_has_sufficient_preferences _);
      [destruct (_get_recommendations _ _) as [t [[|r rs]|e]]|]];
    done.
Qed.

(** X10. After a turn, the history endpoint shows for its conversation
    the old messages, then the user's message, then the bot's reply; the
    reply is missing when the response carries recommendations and when
    the engine raised.  The preferences shown are the merged ones. *)
Theorem turn_recorded_in_history self env request :
  Api.get_conversation_history (process_message self env request).1
    (turn_conversation_id env request)
  = Api.Response
      {| Api.history_conversation_id := turn_conversation_id env request;
         Api.history_messages :=
           messages (turn_conversation self env request)
           ++ user_message env request
              :: recorded_reply env
                   (outcome (process_message self env request).2);
         Api.history_preferences := merged_preferences self env request |}.
Proof.
  unfold Api.get_conversation_history. unfold_turn.
  destruct (String.eqb _ _ || _is_greeting _);
    [|destruct (_has_sufficient_preferences _);
      [destruct (_get_recommendations _ _) as [t [[|r rs]|e]]|]];
    cbn [fst snd outcome conversations resp_recommendations];
    rewrite lookup_insert_eq; cbn [messages conv_preferences];
    by rewrite <-?app_assoc.
Qed.

(** X11. A turn touches nothing but its own conversation: the catalog
    and every other conversation, and what the history endpoint shows for
    them, are as before. *)
Theorem turn_leaves_the_rest_alone self env request :
  laptop_data (process_message self env request).1 = laptop_data self ∧
  ∀ conversation_id,
    conversation_id ≠ turn_conversation_id env request →
    conversations (process_message self env request).1 !! conversation_id
    = conversations self !! conversation_id ∧
    Api.get_conversation_history (process_message self env request).1
      conversation_id
    = Api.get_conversation_history self conversation_id.
Proof.
  split; [apply process_message_laptop_data|].
  intros conversation_id Hid.
  pose proof (process_message_frame self env request conversation_id Hid)
    as Hframe.
  split; [done|]. unfold Api.get_conversation_history. by rewrite Hframe.
Qed.

Lemma stage_after self env request :
  stage <$> conversation_after self env request
  = Some (if greeting_turn self env request then "getting_preferences"
          else match outcome (process_message self env request).2 with
               | Ok response =>
                   match resp_recommendations response with
                   | Some _ => "recommendations"
                   | None => stage (turn_conversation self env request)
                   end
               | Raise _ => stage (turn_conversation self env request)
               end).
Proof.
  unfold_turn.
  destruct (String.eqb _ _ || _is_greeting _);
    [|destruct (_has_sufficient_preferences _);
      [destruct (_get_recommendations _ _) as [t [[|r rs]|e]]|]];
    cbn [fst snd outcome conversations resp_recommendations];
    by rewrite lookup_insert_eq.
Qed.

Lemma stage_after_not_greeting self env request :
  ∃ conv, conversation_after self env request = Some conv ∧
          stage conv ≠ "greeting".
Proof.
  pose proof (stage_after self env request) as Hs.
  destruct (conversation_after self env request) as [conv|]; [|done].
  exists conv. split; [done|]. injection Hs as ->.
  unfold greeting_turn.
  destruct (String.eqb (stage (turn_conversation self env request))
              "greeting") eqn:Hg; [done|].
  apply String.eqb_neq in Hg.
  destruct (_is_greeting _); [done|]. simpl.
  destruct (outcome _) as [response|e]; [|done].
  by destruct (resp_recommendations response).
Qed.

(** X12. Once a conversation has had a turn, whatever that turn was, a
    later turn of it is answered with the greeting exactly when its
    message is a greeting: the stage is never again the first one. *)
Theorem greeting_forced_only_once self env request env' request' :
  turn_conversation_id env' request' = turn_conversation_id env request →
  greeting_turn (process_message self env request).1 env' request'
  = _is_greeting (turn_message request').
Proof.
  intros Hid. destruct (stage_after_not_greeting self env request)
    as (conv & Hconv & Hstage).
  unfold greeting_turn, turn_conversation. rewrite Hid.
  unfold conversation_after in Hconv. rewrite Hconv. simpl.
  apply String.eqb_neq in Hstage. by rewrite Hstage.
Qed.

Lemma slice_to_3_cons {A} (x : A) xs :
  slice_to 3 (x :: xs) ≠ [] ∧ length (slice_to 3 (x :: xs)) ≤ 3 ∧
  slice_to 3 (x :: xs) `prefix_of` x :: xs.
Proof.
  split; [done|]. split; [|apply slice_to_prefix].
  unfold slice_to. simpl. rewrite length_take. lia.
Qed.

(** X13. The replies of [process_message]: a response has the
    conversation identifier and the merged preferences of the turn; its
    text is the greeting, the budget question, the usage question (with
    the budget stored, and then no usage type is stored), the text about
    no match, or the recommendations, of which there are between one and
    three.  The questions about the brand and about further features are
    never asked.  An exception can only come from the engine. *)
Theorem replies_of_a_turn self env request :
  match outcome (process_message self env request).2 with
  | Ok response =>
      resp_conversation_id response = turn_conversation_id env request ∧
      resp_extracted_preferences response
      = merged_preferences self env request ∧
      match resp_message response with
      | Plain s =>
          (s = greeting_text ∨ s = budget_question ∨ s = no_match_text) ∧
          s ≠ brand_question ∧ s ≠ open_question ∧
          resp_recommendations response = None
      | UsageQuestion b =>
          budget (merged_preferences self env request) = Some b ∧
          usage_type (merged_preferences self env request) = None ∧
          resp_recommendations response = None
      | RecommendationsText rs =>
          resp_recommendations response = Some rs ∧ rs ≠ [] ∧
          length rs ≤ 3
      end
  | Raise e =>
      greeting_turn self env request = false ∧
      is_Some (budget (merged_preferences self env request)) ∧
      is_Some (usage_type (merged_preferences self env request))
  end.
Proof.
  destruct literal_replies as (G1 & G2 & B1 & B2 & N1 & N2).
  unfold_turn.
  destruct (String.eqb _ _ || _is_greeting _);
    [cbn [snd outcome resp_message resp_recommendations
          resp_conversation_id resp_extracted_preferences]; by auto 10|].
  destruct (_has_sufficient_preferences _) eqn:Hs.
  - apply _has_sufficient_preferences_spec in Hs.
    destruct (_get_recommendations _ _) as [t [[|r rs]|e]];
      cbn [snd outcome resp_message resp_recommendations
           resp_conversation_id resp_extracted_preferences].
    + by auto 10.
    + destruct (slice_to_3_cons r rs) as (? & ? & _). by auto 10.
    + done.
  - cbn [snd outcome resp_message resp_recommendations
         resp_conversation_id resp_extracted_preferences].
    split; [done|]. split; [done|].
    unfold _ask_for_missing_preferences.
    unfold _has_sufficient_preferences in Hs.
    destruct (budget (update _ _)) as [b|]; [|by auto 10].
    destruct (usage_type (update _ _)) as [u|]; [|done].
    by rewrite !bool_decide_eq_true_2 in Hs by eauto.
Qed.

(** *** The recommendations of a turn *)



(** *** What utterances can put into the preferences *)

Lemma extract_budget_nonneg message v :
  extract_budget budget_patterns message = Some v → (0 ≤ v)%Qc.
Proof.
  intros (r & m & Hr & Hm & Hv)%extract_budget_Some.
  apply search_Some in Hm as (skipped & s' & p & st' & _ & _ & Hst' & _ & Hg).
  apply (budget_patterns_capture r Hr) in Hst'
    as (w & _ & _ & Hw & Hamount & _).
  unfold group in Hv. rewrite Hg, Hw in Hv. simpl in Hv.
  destruct (float_amount w v Hamount Hv) as (z & _ & -> & Hz & _).
  by apply Qc_of_Z_nonneg.
Qed.

Lemma extract_usage_elem_of table message u :
  extract_usage table message = Some u → u ∈ table.*1.
Proof.
  induction table as [|[usage patterns] table IH]; [done|]. simpl.
  destruct (any_match patterns message).
  - intros [= ->]. apply list_elem_of_here.
  - intros Hu. apply list_elem_of_further. by apply IH.
Qed.

Lemma extract_usage_member message u :
  extract_usage usage_patterns message = Some u →
  u ∈ UsageType.members ∧ u ≠ UsageType.GENERAL.
Proof.
  intros Hu%extract_usage_elem_of. simpl in Hu.
  rewrite !elem_of_cons, elem_of_nil in Hu.
  destruct Hu as [->|[->|[->|[->|[->|[]]]]]];
    (split; [apply (bool_decide_unpack _); vm_compute; exact I|done]).
Qed.

Lemma extracted_preferences_sound message :
  sound_preferences (_extract_preferences message).
Proof.
  unfold _extract_preferences. split; cbn [budget usage_type].
  - apply extract_budget_nonneg.
  - intros u Hu. by destruct (extract_usage_member message u Hu).
Qed.

Lemma update_sound old new :
  sound_preferences old → sound_preferences new →
  sound_preferences (update old new).
Proof.
  intros [Hb Hu] [Hb' Hu']. unfold update, update_key. split; simpl.
  - destruct (budget new); [by apply Hb'|apply Hb].
  - destruct (usage_type new); [by apply Hu'|apply Hu].
Qed.

(** *** Turns that cannot fail *)

Lemma engine_returns_on_sound data (b : Qc) u brand_preference min_ram
    min_storage prefer_gpu limit :
  Forall (λ l, (0 < price l)%Qc) data → (0 ≤ b)%Qc →
  u ∈ UsageType.members →
  ∃ out, outcome (RecommendationEngine.get_recommendations data b u
                    brand_preference min_ram min_storage prefer_gpu limit)
         = Ok out.
Proof.
  intros Hdata Hb Hu. destruct (decide (b = 0%Qc)) as [->|Hb0].
  - rewrite get_recommendations_outcome by (by left).
    assert (∀ brand_preference min_ram min_storage,
              filter_results data 0%Qc u brand_preference min_ram
                min_storage prefer_gpu = []) as Hnone.
    { intros bp mr ms. apply elem_of_nil_inv. intros l Hl.
      apply filter_results_elem_of in Hl as [Hin (Hprice & _)].
      rewrite Forall_forall in Hdata.
      apply Qcle_not_lt in Hprice. apply Hprice. by apply Hdata. }
    unfold candidates. rewrite Hnone.
    replace (0 * d 11 10)%Qc with 0%Qc by ring. rewrite Hnone.
    rewrite ranked_eq. eauto.
  - by apply get_recommendations_returns.
Qed.

Lemma process_message_raises self env request e :
  outcome (process_message self env request).2 = Raise e →
  outcome (_get_recommendations self (merged_preferences self env request))
  = Raise e ∧
  _has_sufficient_preferences (merged_preferences self env request) = true.
Proof.
  unfold_turn.
  destruct (String.eqb _ _ || _is_greeting _); [done|].
  destruct (_has_sufficient_preferences _) eqn:Hs; [|done].
  destruct (_get_recommendations _ _) as [t [[|r rs']|e']];
    cbn [snd outcome]; try done. by intros [= <-].
Qed.

(** X15. For a bot whose catalog has positive prices and whose stored
    preferences have budgets that are not negative and usage types of the
    enumeration (in particular a bot without conversations), this
    remains so after any turn, and the chat endpoint answers every
    request with a response, never with an error. *)
Theorem sound_bot_never_fails self env request :
  sound_bot self →
  sound_bot (process_message self env request).1 ∧
  ∃ response,
    Api.chat self env request
    = ((process_message self env request).1, Api.Response response).
Proof.
  intros [Hdata Hconvs].
  assert (sound_preferences (merged_preferences self env request))
    as Hmerged.
  { apply update_sound; [|apply extracted_preferences_sound].
    unfold turn_conversation.
    destruct (conversations self !! turn_conversation_id env request)
      as [conv|] eqn:Hconv; [by eapply Hconvs|done]. }
  split.
  - split; [by rewrite process_message_laptop_data|].
    intros conversation_id conv Hconv.
    destruct (decide (conversation_id = turn_conversation_id env request))
      as [->|Hid].
    + pose proof (process_message_preferences self env request) as Hp.
      rewrite Hconv in Hp. by injection Hp as ->.
    + rewrite process_message_frame in Hconv by done. by eapply Hconvs.
  - unfold Api.chat.
    destruct (process_message self env request) as [bot' m] eqn:Hpm.
    cbn [fst].
    destruct (outcome m) as [response|e] eqn:Hm; [by eauto|].
    replace m with (process_message self env request).2 in Hm
      by (by rewrite Hpm).
    apply process_message_raises in Hm as [Hm Hs].
    apply _has_sufficient_preferences_spec in Hs as [[b Hb] [u Hu]].
    rewrite _get_recommendations_eq in Hm. cbn [outcome snd] in Hm.
    rewrite Hb, Hu in Hm. cbn [default from_option id] in Hm.
    destruct Hmerged as [Hb0 Hu0].
    destruct (engine_returns_on_sound (laptop_data self) b u
                (brand_preference (merged_preferences self env request))
                (min_ram (merged_preferences self env request))
                (min_storage (merged_preferences self env request))
                (default false
                   (prefer_gpu (merged_preferences self env request))) 5
                Hdata (Hb0 _ Hb) (Hu0 _ Hu)) as [out Hout].
    congruence.
Qed.

(** X16. What [_extract_preferences] can put into the record: a budget
    that is not negative; one of the five usage types other than general;
    one of the nine known brands, in lower case; amounts of memory and of
    storage that are not negative; and for the GPU only the value true. *)
Theorem extracted_preferences_well_formed message :
  (∀ b, budget (_extract_preferences message) = Some b → (0 ≤ b)%Qc) ∧
  (∀ u, usage_type (_extract_preferences message) = Some u →
        u ∈ UsageType.members ∧ u ≠ UsageType.GENERAL) ∧
  (∀ brand, brand_preference (_extract_preferences message) = Some brand →
            brand ∈ common_brands ∧ lower brand = brand) ∧
  (∀ n, min_ram (_extract_preferences message) = Some n → (0 ≤ n)%Z) ∧
  (∀ n, min_storage (_extract_preferences message) = Some n → (0 ≤ n)%Z) ∧
  prefer_gpu (_extract_preferences message) ≠ Some false.
Proof.
  unfold _extract_preferences.
  cbn [budget usage_type brand_preference min_ram min_storage prefer_gpu].
  split; [apply extract_budget_nonneg|].
  split; [apply extract_usage_member|].
  split; [|split; [|split]].
  - intros brand. unfold extract_brand.
    destruct (search brand_pattern message) as [m|]; [|done].
    case_bool_decide as Hbrand; [|done]. intros [= <-].
    split; [done|]. revert Hbrand.
    generalize (lower (string_of_list_ascii (group m))). intros brand.
    unfold common_brands. rewrite !elem_of_cons, elem_of_nil.
    intros [->|[->|[->|[->|[->|[->|[->|[->|[->|[]]]]]]]]]]; done.
  - intros n. unfold extract_ram.
    destruct (search ram_pattern message) as [m|] eqn:Hm; [|done].
    apply search_Some in Hm
      as (skipped & s' & p & st' & _ & _ & Hst' & _ & Hg).
    apply (run_number_then ram_unit) in Hst'
      as (w & t & Hw & Hne & Hd & _); [|done].
    unfold group. rewrite Hg, Hw. simpl.
    destruct (int_digits w Hne Hd) as (z & Hz & Hz0). rewrite Hz.
    by intros [= <-].
  - intros n. unfold extract_storage.
    destruct (search storage_pattern message) as [m|] eqn:Hm; [|done].
    apply search_Some in Hm
      as (skipped & s' & p & st' & _ & _ & Hst' & _ & Hg).
    apply (run_number_then storage_unit) in Hst'
      as (w & t & Hw & Hne & Hd & _); [|done].
    unfold group. rewrite Hg, Hw. simpl.
    destruct (int_digits w Hne Hd) as (z & Hz & Hz0). rewrite Hz.
    destruct (contains _ _); intros [= <-]; lia.
  - unfold extract_gpu. by destruct (search gpu_pattern message).
Qed.

(** *** The properties at concrete inputs *)

Lemma greeting_forced_only_once_witness :
  turn_conversation_id sample_env (say "something for gaming")
  = turn_conversation_id sample_env (say "hello") ∧
  greeting_turn (process_message fresh_bot sample_env (say "hello")).1
    sample_env (say "something for gaming")
  = _is_greeting (turn_message (say "something for gaming")).
Proof.
  split; [reflexivity|].
  apply (greeting_forced_only_once fresh_bot sample_env (say "hello")
           sample_env (say "something for gaming")).
  reflexivity.
Defined.


Lemma sound_bot_never_fails_witness :
  sound_bot fresh_bot ∧
  sound_bot (process_message fresh_bot sample_env (say "hello")).1 ∧
  ∃ response,
    Api.chat fresh_bot sample_env (say "hello")
    = ((process_message fresh_bot sample_env (say "hello")).1,
       Api.Response response).
Proof.
  assert (sound_bot fresh_bot) as Hsound.
  { split.
    - repeat constructor.
    - intros conversation_id conv Hconv.
      exfalso. revert Hconv. simpl. by rewrite lookup_empty. }
  split; [exact Hsound|].
  exact (sound_bot_never_fails fresh_bot sample_env (say "hello") Hsound).
Defined.

End chatbot_more.

(** ** The endpoints *)

Section api.
Import Py ChatBot ChatSpec TurnSpec EngineSpec.
Import RecommendationEngine (filter_results, d).

Implicit Types (self bot : chatbot) (env : environment).
Implicit Types (request : ChatRequest).




Lemma update_empty (p : preferences) : update empty_preferences p = p.
Proof. by destruct p as [[] [] [] [] [] []]. Qed.

(** X18. Deleting an unknown conversation gives status 404 and changes
    nothing.  Deleting a known one succeeds; afterwards its history is
    not found, the histories of the others are as before, and the next
    turn with its identifier starts over: it is answered with the
    greeting and stores only what its own message says. *)
Theorem delete_conversation_forgets bot conversation_id :
  match conversations bot !! conversation_id with
  | None =>
      Api.delete_conversation bot conversation_id
      = (bot, Api.HTTPException 404
                (Api.ConversationNotFound conversation_id))
  | Some _ =>
      (Api.delete_conversation bot conversation_id).2
      = Api.Response conversation_id ∧
      laptop_data (Api.delete_conversation bot conversation_id).1
      = laptop_data bot ∧
      Api.get_conversation_history
        (Api.delete_conversation bot conversation_id).1 conversation_id
      = Api.HTTPException 404 (Api.ConversationNotFound conversation_id) ∧
      (∀ other,
         other ≠ conversation_id →
         Api.get_conversation_history
           (Api.delete_conversation bot conversation_id).1 other
         = Api.get_conversation_history bot other) ∧
      ∀ env request,
        turn_conversation_id env request = conversation_id →
        greeting_turn (Api.delete_conversation bot conversation_id).1 env
          request = true ∧
        merged_preferences (Api.delete_conversation bot conversation_id).1
          env request
        = _extract_preferences (turn_message request)
  end.
Proof.
  unfold Api.delete_conversation.
  destruct (conversations bot !! conversation_id) as [conv|] eqn:Hconv;
    [|done].
  cbn [fst snd laptop_data]. split; [done|]. split; [done|].
  unfold Api.get_conversation_history. cbn [conversations].
  split; [by rewrite lookup_delete_eq|].
  split; [by intros other Hother; rewrite lookup_delete_ne|].
  intros env request Hid.
  unfold greeting_turn, merged_preferences, turn_conversation.
  cbn [conversations]. rewrite Hid, lookup_delete_eq. split; [done|].
  apply update_empty.
Qed.

(** X19. A turn of a conversation that did not exist, followed by the
    deletion of that conversation, gives back the bot as it was. *)
Theorem new_conversation_then_delete self env request :
  conversations self !! turn_conversation_id env request = None →
  Api.delete_conversation (process_message self env request).1
    (turn_conversation_id env request)
  = (self, Api.Response (turn_conversation_id env request)).
Proof.
  intros Hnew. unfold Api.delete_conversation.
  pose proof (process_message_preferences self env request) as Hp.
  destruct (conversations (process_message self env request).1
              !! turn_conversation_id env request) as [conv|] eqn:Hconv;
    [|done].
  f_equal. clear Hp.
  assert (delete (turn_conversation_id env request)
            (conversations (process_message self env request).1)
          = conversations self) as ->.
  { apply map_eq. intros i.
    destruct (decide (i = turn_conversation_id env request)) as [->|Hi].
    - by rewrite lookup_delete_eq.
    - rewrite lookup_delete_ne by done. by apply process_message_frame. }
  rewrite process_message_laptop_data. by destruct self.
Qed.

(** *** The properties at concrete inputs *)


Lemma new_conversation_then_delete_witness :
  conversations fresh_bot !! turn_conversation_id sample_env (say "hello")
  = None ∧
  Api.delete_conversation
    (process_message fresh_bot sample_env (say "hello")).1
    (turn_conversation_id sample_env (say "hello"))
  = (fresh_bot, Api.Response (turn_conversation_id sample_env (say "hello"))).
Proof.
  split; [reflexivity|].
  apply (new_conversation_then_delete fresh_bot sample_env (say "hello")).
  reflexivity.
Defined.

End api.

(** ** More about the extraction *)

Section extraction_more.
Import Py Re ReSpec ChatBot.

Implicit Types (message : string) (w s : list ascii) (m : re_match).
Implicit Types (r a b : regex) (st : state).

(** *** Patterns that cannot fail *)

Lemma run_Star_nonempty a st : run (Star a) st ≠ [].
Proof.
  simpl. destruct (length (rest st)); simpl; [done|].
  by intros [_ ?]%app_nil.
Qed.

Lemma run_UpTo_nonempty n a st : run (UpTo n a) st ≠ [].
Proof. destruct n; [done|apply run_Opt_nonempty]. Qed.

Lemma run_Seq_nonempty a b st st1 :
  st1 ∈ run a st → run b st1 ≠ [] → run (Seq a b) st ≠ [].
Proof.
  intros H1 H2 Hnil. destruct (run b st1) as [|st2 l] eqn:Hb; [done|].
  assert (st2 ∈ run (Seq a b) st) as H.
  { apply run_Seq. exists st1. split; [done|]. rewrite Hb.
    apply list_elem_of_here. }
  rewrite Hnil in H. by apply elem_of_nil in H.
Qed.

Lemma run_Seq_total a b st :
  run a st ≠ [] → (∀ st1, run b st1 ≠ []) → run (Seq a b) st ≠ [].
Proof.
  intros Ha Hb. destruct (run a st) as [|st1 l] eqn:H1; [done|].
  apply (run_Seq_nonempty a b st st1); [|done].
  rewrite H1. apply list_elem_of_here.
Qed.

Lemma run_Group_nonempty a st : run a st ≠ [] → run (Group a) st ≠ [].
Proof. intros Ha Hnil. by apply fmap_nil_inv in Hnil. Qed.

Lemma run_digit_then r p x t g :
  is_digit x = true →
  run (Seq (Cls Digit) r) (State p (x :: t) g)
  = run r (State (Some x) t g).
Proof.
  intros Hx. change (run (Seq (Cls Digit) r) (State p (x :: t) g))
    with (run (Cls Digit) (State p (x :: t) g) ≫= run r).
  rewrite run_digit_hit by done. simpl. apply app_nil_r.
Qed.

Lemma amount_matches_three_digits p s g :
  three_digits_at s = true → run amount (State p s g) ≠ [].
Proof.
  destruct s as [|x [|y [|z t]]]; try done.
  intros H. simpl in H.
  apply andb_true_iff in H as [[Hx Hy]%andb_true_iff Hz].
  unfold amount, pattern.
  apply (run_Seq_nonempty _ _ _ (State p (x :: y :: z :: t) g)).
  { apply run_Opt. by right. }
  apply run_Group_nonempty, run_Seq_total.
  - change (Rep 3 2 (Cls Digit))
      with (Seq (Cls Digit) (Seq (Cls Digit) (Seq (Cls Digit)
              (UpTo 2 (Cls Digit))))).
    rewrite !run_digit_then by done. apply run_UpTo_nonempty.
  - intros st1. apply run_Star_nonempty.
Qed.

Lemma first_budget_pattern_matches r p s :
  budget_patterns !! 0 = Some r →
  three_digits_at s = true → run r (State p s None) ≠ [].
Proof.
  intros [= <-] Hs. apply run_Seq_total.
  - by apply amount_matches_three_digits.
  - intros st1. apply run_Opt_nonempty.
Qed.

Lemma search_from_three_digits r offset before s :
  (∀ p s', three_digits_at s' = true → run r (State p s' None) ≠ []) →
  has_three_digits s = true → is_Some (search_from r offset before s).
Proof.
  intros Hr. revert offset before.
  induction s as [|c s IH]; intros offset before Hs; [done|].
  rewrite has_three_digits_cons in Hs. cbn [search_from].
  destruct (head (run r (State before (c :: s) None))) as [st'|] eqn:Hh;
    [done|].
  destruct (three_digits_at (c :: s)) eqn:Hc.
  - apply (Hr before) in Hc.
    by destruct (run r (State before (c :: s) None)).
  - by apply IH.
Qed.

Lemma budget_pattern_needs_three_digits r message m :
  r ∈ budget_patterns → search r message = Some m →
  has_three_digits (list_ascii_of_string message) = true ∧
  is_Some (float (remove_commas (group m))).
Proof.
  intros Hr Hm.
  apply search_Some in Hm as (skipped & s' & p & st' & Hs & _ & Hst' & _ & Hg).
  apply (budget_patterns_capture r Hr) in Hst'
    as (w & u & post & Hw & Hamount & Hs').
  simpl in Hs'. split.
  - rewrite Hs, Hs', app_assoc. apply has_three_digits_app.
    destruct Hamount as (a & b & c & t & -> & Ha & Hb & Hc & _).
    simpl. by rewrite Ha, Hb, Hc.
  - unfold group. rewrite Hg, Hw. simpl.
    destruct (remove_commas_amount w Hamount)
      as (a & ds & _ & -> & Ha & _ & Hds).
    destruct (int_digits (a :: ds)) as (z & Hz & _);
      [done|by constructor|].
    unfold float. by rewrite Hz.
Qed.

(** X20. [_extract_preferences] sets the budget exactly when the
    utterance has three decimal digits in a row, and the budget is the one
    that the first budget pattern alone gives: the four patterns after it
    never decide anything. *)
Theorem budget_set_iff_three_digits message :
  (is_Some (budget (_extract_preferences message)) ↔
   has_three_digits (list_ascii_of_string message) = true) ∧
  budget (_extract_preferences message)
  = extract_budget (take 1 budget_patterns) message.
Proof.
  unfold _extract_preferences. cbn [budget].
  assert (∃ r1 others,
            budget_patterns = r1 :: others ∧ budget_patterns !! 0 = Some r1)
    as (r1 & others & Hbp & Hr1) by (by eexists _, _).
  rewrite Hbp. cbn [take extract_budget].
  destruct (search r1 message) as [m|] eqn:Hm.
  - destruct (budget_pattern_needs_three_digits r1 message m)
      as [H3 [v Hv]]; [|done|].
    { rewrite Hbp. apply list_elem_of_here. }
    rewrite Hv. by split.
  - assert (has_three_digits (list_ascii_of_string message) = false) as H3.
    { destruct (has_three_digits _) eqn:H3; [|done].
      destruct (search_from_three_digits r1 0 None
                  (list_ascii_of_string message)) as [m' Hm']; [|done|].
      - intros p s'. by apply first_budget_pattern_matches.
      - unfold search in Hm. congruence. }
    assert (extract_budget others message = None) as ->.
    { destruct (extract_budget others message) as [v|] eqn:Hv; [|done].
      apply extract_budget_Some in Hv as (r & m' & Hr & Hm' & _).
      destruct (budget_pattern_needs_three_digits r message m');
        [|done|congruence].
      rewrite Hbp. by apply list_elem_of_further. }
    split; [|done]. rewrite H3. split; [by intros [? ?]|done].
Qed.

End extraction_more.

(** ** Extraction and case *)

Section ignore_case.
Import Py Re ReSpec ChatBot CaseSpec.

Implicit Types (message : string) (w s : list ascii) (m : re_match).
Implicit Types (r a b : regex) (st : state) (c x : ascii).

(** *** Characters *)

Ltac by_cases c := destruct c as [[] [] [] [] [] [] [] []]; reflexivity.

Lemma lower_ascii_idemp c : lower_ascii (lower_ascii c) = lower_ascii c.
Proof. by_cases c. Qed.

Lemma upper_lower_ascii c : upper_ascii (lower_ascii c) = upper_ascii c.
Proof. by_cases c. Qed.

Lemma is_digit_lower c : is_digit (lower_ascii c) = is_digit c.
Proof. by_cases c. Qed.

Lemma is_space_lower c : is_space (lower_ascii c) = is_space c.
Proof. by_cases c. Qed.

Lemma is_word_lower c : is_word (lower_ascii c) = is_word c.
Proof. by_cases c. Qed.

Lemma digit_value_lower c :
  is_digit c = true → lower_ascii c = c.
Proof. destruct c as [[] [] [] [] [] [] [] []]; done. Qed.

Lemma newline_lower c :
  Ascii.eqb (lower_ascii c) "010" = Ascii.eqb c "010".
Proof. by_cases c. Qed.

Lemma comma_lower c : lower_ascii c = ","%char → c = ","%char.
Proof. destruct c as [[] [] [] [] [] [] [] []]; done. Qed.

Lemma in_cls_lower k c : in_cls k (lower_ascii c) = in_cls k c.
Proof.
  destruct k; [apply is_digit_lower|apply is_space_lower|apply is_word_lower].
Qed.

Lemma same_letter_lower x c : same_letter (lower_ascii x) c = same_letter x c.
Proof. unfold same_letter. by rewrite lower_ascii_idemp. Qed.

Lemma word_at_lower (o : option ascii) :
  word_at (lower_ascii <$> o) = word_at o.
Proof. destruct o; [apply is_word_lower|done]. Qed.

(** *** Strings *)

Lemma list_ascii_of_lower message :
  list_ascii_of_string (lower message)
  = lower_ascii <$> list_ascii_of_string message.
Proof. induction message as [|c message IH]; [done|]. simpl. by rewrite IH. Qed.

Lemma lower_string_of_lower w :
  lower (string_of_list_ascii (lower_ascii <$> w))
  = lower (string_of_list_ascii w).
Proof.
  induction w as [|c w IH]; [done|].
  rewrite fmap_cons. cbn [string_of_list_ascii lower].
  by rewrite lower_ascii_idemp, IH.
Qed.

Lemma upper_string_of_lower w :
  upper (string_of_list_ascii (lower_ascii <$> w))
  = upper (string_of_list_ascii w).
Proof.
  induction w as [|c w IH]; [done|].
  rewrite fmap_cons. cbn [string_of_list_ascii upper].
  by rewrite upper_lower_ascii, IH.
Qed.

Lemma digits_value_lower acc w :
  digits_value acc (lower_ascii <$> w) = digits_value acc w.
Proof.
  revert acc. induction w as [|c w IH]; intros acc; [done|].
  rewrite fmap_cons. cbn [digits_value].
  rewrite is_digit_lower. destruct (is_digit c) eqn:Hc; [|done].
  by rewrite (digit_value_lower c Hc), IH.
Qed.

Lemma int_lower w : int (lower_ascii <$> w) = int w.
Proof. destruct w as [|c w]; [done|]. apply (digits_value_lower 0 (c :: w)). Qed.

Lemma remove_commas_lower w :
  remove_commas (lower_ascii <$> w) = lower_ascii <$> remove_commas w.
Proof.
  unfold remove_commas. induction w as [|c w IH]; [done|].
  rewrite fmap_cons. destruct (decide (c = ","%char)) as [->|Hc].
  - rewrite !filter_cons_False by (by intros H; apply H). apply IH.
  - rewrite !filter_cons_True; [by rewrite fmap_cons, IH|..]; try done.
    intros Hl. by apply Hc, comma_lower.
Qed.

(** *** The matcher *)

Lemma bind_fmap_commute {A B} (f : A → A) (g : B → B)
    (k : A → list B) (l : list A) :
  (∀ e, k (f e) = g <$> k e) → (f <$> l) ≫= k = g <$> (l ≫= k).
Proof.
  intros Hk. induction l as [|e l IH]; [done|].
  rewrite fmap_cons. cbn [mbind list_bind]. by rewrite fmap_app, Hk, IH.
Qed.

Lemma filter_fmap_commute {A} (f : A → A) (P Q : A → Prop)
    `{!∀ e, Decision (P e)} `{!∀ e, Decision (Q e)} (l : list A) :
  (∀ e, P (f e) ↔ Q e) → filter P (f <$> l) = f <$> filter Q l.
Proof.
  intros HPQ. induction l as [|e l IH]; [done|].
  rewrite fmap_cons, !filter_cons, IH.
  destruct (decide (P (f e))) as [HP|HP], (decide (Q e)) as [HQ|HQ];
    try done; [by apply HPQ in HP|by apply HPQ in HQ].
Qed.

Lemma consumed_lower st st' :
  consumed (lower_state st) (lower_state st')
  = lower_text (consumed st st').
Proof.
  unfold consumed, lower_state, lower_text. cbn [rest].
  by rewrite !length_fmap, fmap_take.
Qed.

Lemma star_loop_lower step fuel st :
  (∀ st, step (lower_state st) = lower_state <$> step st) →
  star_loop step fuel (lower_state st)
  = lower_state <$> star_loop step fuel st.
Proof.
  intros Hstep. revert st. induction fuel as [|n IH]; intros st; [done|].
  cbn [star_loop]. rewrite fmap_app, Hstep. f_equal.
  rewrite (filter_fmap_commute lower_state _
             (λ st', length (rest st') < length (rest st))).
  - by apply bind_fmap_commute.
  - intros st'. unfold lower_state, lower_text. cbn [rest].
    by rewrite !length_fmap.
Qed.

Lemma run_lower r st :
  run r (lower_state st) = lower_state <$> run r st.
Proof.
  revert st. induction r as [| |c|k|a IHa b IHb|a IHa b IHb|a IHa|a IHa| | |];
    intros st.
  - done.
  - done.
  - simpl. destruct (rest st) as [|x t]; [done|]. simpl.
    rewrite same_letter_lower. by destruct (same_letter x c).
  - simpl. destruct (rest st) as [|x t]; [done|]. simpl.
    rewrite in_cls_lower. by destruct (in_cls k x).
  - cbn [run]. rewrite IHa. by apply bind_fmap_commute.
  - cbn [run]. by rewrite fmap_app, IHa, IHb.
  - cbn [run].
    replace (length (rest (lower_state st))) with (length (rest st))
      by (unfold lower_state, lower_text; cbn [rest];
          by rewrite length_fmap).
    by apply star_loop_lower.
  - cbn [run]. rewrite IHa, <-!list_fmap_compose.
    apply list_fmap_ext. intros i st' _. unfold compose.
    by rewrite consumed_lower.
  - simpl. rewrite word_at_lower.
    destruct (rest st) as [|x t]; simpl.
    + by destruct (xorb _ _).
    + rewrite is_word_lower. by destruct (xorb _ _).
  - simpl. by destruct (prev st).
  - simpl. destruct (rest st) as [|x [|y t]]; simpl; [done| |done].
    rewrite newline_lower. by destruct (Ascii.eqb x "010").
Qed.

Lemma search_from_lower r offset before s :
  search_from r offset (lower_ascii <$> before) (lower_ascii <$> s)
  = lower_match <$> search_from r offset before s.
Proof.
  revert offset before. induction s as [|c s IH]; intros offset before.
  - cbn [search_from fmap list_fmap].
    change (State (lower_ascii <$> before) [] None)
      with (lower_state (State before [] None)).
    rewrite run_lower. destruct (run r (State before [] None)) as [|st' l];
      [done|]. simpl. unfold lower_match. simpl. do 2 f_equal.
    all: try apply (consumed_lower (State before [] None) st').
  - rewrite fmap_cons. cbn [search_from].
    change (State (lower_ascii <$> before) (lower_ascii c :: (lower_ascii <$> s)) None)
      with (lower_state (State before (c :: s) None)).
    rewrite run_lower.
    destruct (run r (State before (c :: s) None)) as [|st' l].
    + simpl. apply (IH (S offset) (Some c)).
    + simpl. unfold lower_match. simpl. do 2 f_equal.
      all: try apply (consumed_lower (State before (c :: s) None) st').
Qed.

Lemma search_lower r message :
  search r (lower message) = lower_match <$> search r message.
Proof.
  unfold search. rewrite list_ascii_of_lower.
  apply (search_from_lower r 0 None).
Qed.

Lemma group_lower m : group (lower_match m) = lower_ascii <$> group m.
Proof. unfold group. simpl. by destruct (group_1 m). Qed.

(** *** The extractors *)

Lemma extract_budget_lower patterns message :
  extract_budget patterns (lower message) = extract_budget patterns message.
Proof.
  induction patterns as [|r patterns IH]; [done|]. cbn [extract_budget].
  rewrite search_lower, IH. destruct (search r message) as [m|]; [|done].
  simpl. rewrite group_lower, remove_commas_lower. unfold float.
  by rewrite int_lower.
Qed.

Lemma any_match_lower patterns message :
  any_match patterns (lower message) = any_match patterns message.
Proof.
  induction patterns as [|r patterns IH]; [done|]. cbn [any_match].
  rewrite search_lower, IH. by destruct (search r message).
Qed.

Lemma extract_usage_lower table message :
  extract_usage table (lower message) = extract_usage table message.
Proof.
  induction table as [|[usage patterns] table IH]; [done|].
  cbn [extract_usage]. by rewrite any_match_lower, IH.
Qed.

Lemma _extract_preferences_lower message :
  _extract_preferences (lower message) = _extract_preferences message.
Proof.
  unfold _extract_preferences. f_equal.
  - apply extract_budget_lower.
  - apply extract_usage_lower.
  - unfold extract_brand. rewrite search_lower.
    destruct (search brand_pattern message) as [m|]; [|done]. simpl.
    by rewrite group_lower, lower_string_of_lower.
  - unfold extract_ram. rewrite search_lower.
    destruct (search ram_pattern message) as [m|]; [|done]. simpl.
    by rewrite group_lower, int_lower.
  - unfold extract_storage. rewrite search_lower.
    destruct (search storage_pattern message) as [m|]; [|done]. simpl.
    by rewrite group_lower, int_lower, upper_string_of_lower.
  - unfold extract_gpu. rewrite search_lower.
    by destruct (search gpu_pattern message).
Qed.

(** X22. Extraction ignores case: two utterances with the same
    lower-case form give the same preference record, and are both
    greetings or both not. *)
Theorem extraction_ignores_case message message' :
  lower message = lower message' →
  _extract_preferences message = _extract_preferences message' ∧
  _is_greeting message = _is_greeting message'.
Proof.
  intros Hm. split.
  - by rewrite <-(_extract_preferences_lower message),
      <-(_extract_preferences_lower message'), Hm.
  - unfold _is_greeting.
    by rewrite <-(any_match_lower _ message),
      <-(any_match_lower _ message'), Hm.
Qed.

Lemma extraction_ignores_case_witness :
  lower "Hello, I WANT a Dell laptop for GAMING under $1500 with 1TB SSD"
  = lower "hello, i want a dell laptop for gaming under $1500 with 1tb ssd" ∧
  _extract_preferences
    "Hello, I WANT a Dell laptop for GAMING under $1500 with 1TB SSD"
  = _extract_preferences
      "hello, i want a dell laptop for gaming under $1500 with 1tb ssd" ∧
  _is_greeting
    "Hello, I WANT a Dell laptop for GAMING under $1500 with 1TB SSD"
  = _is_greeting
      "hello, i want a dell laptop for gaming under $1500 with 1tb ssd".
Proof.
  split; [reflexivity|].
  apply (extraction_ignores_case
           "Hello, I WANT a Dell laptop for GAMING under $1500 with 1TB SSD"
           "hello, i want a dell laptop for gaming under $1500 with 1tb ssd").
  reflexivity.
Defined.
End ignore_case.
